(** * A personal ledger behind a JSON-RPC dispatcher

    Shallow embedding of [accounting_mcp]: the data model ([models.py]),
    the flat-file store ([storage.py]), the tool layer ([tools.py]) and the
    request dispatcher with its two batch loops, the stdio session and the
    classification of spoken descriptions ([server.py],
    [studio_server.py]).

    Conventions of the embedding.
    - The three JSON documents of the data directory are the fields of
      [Store]; reading and rewriting a document always succeeds.
    - Amounts are Python floats.  Their arithmetic is kept behind the
      interface [Amount], about which no algebraic law is assumed: whatever
      is proved holds for IEEE doubles ([float_amount]) as it does for exact
      numbers.
    - A [datetime] is the number of microseconds since the start of the
      proleptic Gregorian ordinal 0, the linear order Python compares naive
      datetimes by.
    - What Python draws from its environment (the clock, [uuid4]) is an
      explicit argument.
    - Human-readable ["message"] texts that format a float are left out of
      the modelled results. *)

From Stdlib Require Import ZArith PrimFloat.
From stdpp Require Import gmap strings list sorting pretty.

Set Warnings "-register-all".
Local Open Scope Z_scope.

(** ** Amount arithmetic *)

(** The operations the code applies to an amount. *)
Class Amount (A : Type) := {
  zero : A;               (* the literal 0 (or 0.0) *)
  add : A -> A -> A;      (* x + y *)
  sub : A -> A -> A;      (* x - y *)
  absv : A -> A;          (* abs(x) *)
  gt0 : A -> bool;        (* x > 0 *)
  lt0 : A -> bool         (* x < 0 *)
}.

(** Python floats are IEEE 754 binary64 values. *)
#[export] Instance float_amount : Amount float := {
  zero := 0%float;
  add := PrimFloat.add;
  sub := PrimFloat.sub;
  absv := PrimFloat.abs;
  gt0 x := PrimFloat.ltb 0%float x;
  lt0 x := PrimFloat.ltb x 0%float
}.

(** The builtin [sum]: start from 0 and add the items from left to right. *)
Definition py_sum `{Amount A} (l : list A) : A := fold_left add l zero.

(** ** Dates *)

Module Datetime.

Definition MINYEAR : Z := 1.
Definition MAXYEAR : Z := 9999.

Definition is_leap (y : Z) : bool :=
  (y mod 4 =? 0) && (negb (y mod 100 =? 0) || (y mod 400 =? 0)).

Definition days_before_year (y : Z) : Z :=
  let p := y - 1 in p * 365 + p / 4 - p / 100 + p / 400.

Definition days_in_month (y m : Z) : Z :=
  if m =? 2 then (if is_leap y then 29 else 28)
  else if (m =? 4) || (m =? 6) || (m =? 9) || (m =? 11) then 30
  else 31.

(** Days of the year before the first day of month [m]. *)
Definition days_before_month (y m : Z) : Z :=
  nth (Z.to_nat m) [0; 0; 31; 59; 90; 120; 151; 181; 212; 243; 273; 304; 334] 0
  + (if (2 <? m) && is_leap y then 1 else 0).

Definition ymd2ord (y m d : Z) : Z :=
  days_before_year y + days_before_month y m + d.

Definition second_us : Z := 1000000.
Definition day_us : Z := 86400 * second_us.

(** [timedelta(days=d, seconds=s)] as a number of microseconds. *)
Definition timedelta (d s : Z) : Z := d * day_us + s * second_us.

(** [datetime(y, m, d, hh, mm, ss, us)]; [None] stands for the
    [ValueError] of an out-of-range field. *)
Definition datetime (y m d hh mm ss us : Z) : option Z :=
  if (MINYEAR <=? y) && (y <=? MAXYEAR) && (1 <=? m) && (m <=? 12)
     && (1 <=? d) && (d <=? days_in_month y m)
     && (0 <=? hh) && (hh <? 24) && (0 <=? mm) && (mm <? 60)
     && (0 <=? ss) && (ss <? 60) && (0 <=? us) && (us <? second_us)
  then Some (ymd2ord y m d * day_us + ((hh * 60 + mm) * 60 + ss) * second_us + us)
  else None.

(** The instants a [datetime] can hold, from 0001-01-01 00:00:00 to
    9999-12-31 23:59:59.999999; arithmetic that leaves them raises
    [OverflowError]. *)
Definition in_range (v : Z) : Prop :=
  ymd2ord MINYEAR 1 1 * day_us ≤ v < (ymd2ord MAXYEAR 12 31 + 1) * day_us.

(** [datetime(y, m, 1)]: midnight opening month [m] of year [y]. *)
Definition month_start (y m : Z) : option Z := datetime y m 1 0 0 0 0.

End Datetime.

(** ** models.py *)

Record Transaction (A : Type) := mkTransaction {
  tx_id : option string;          (* id: Optional[str] = None *)
  tx_amount : A;                  (* amount: float *)
  tx_category : string;           (* category: str *)
  tx_description : option string; (* description: Optional[str] *)
  tx_timestamp : Z;               (* timestamp: datetime *)
  tx_tags : list string           (* tags: List[str] *)
}.
Arguments mkTransaction {A}.
Arguments tx_id {A}.
Arguments tx_amount {A}.
Arguments tx_category {A}.
Arguments tx_description {A}.
Arguments tx_timestamp {A}.
Arguments tx_tags {A}.

Record Category := mkCategory {
  cat_name : string;
  cat_type : string;
  cat_icon : option string
}.

Record MonthlySummary (A : Type) := mkMonthlySummary {
  month : string;
  total_income : A;
  total_expense : A;
  balance_change : A;
  category_expenses : gmap string A
}.
Arguments mkMonthlySummary {A}.
Arguments month {A}.
Arguments total_income {A}.
Arguments total_expense {A}.
Arguments balance_change {A}.
Arguments category_expenses {A}.

Record AccountSummary (A : Type) := mkAccountSummary {
  account_total_balance : A;      (* total_balance: float *)
  account_total_income : A;       (* total_income: float *)
  account_total_expense : A;      (* total_expense: float *)
  transaction_count : nat         (* transaction_count: int *)
}.
Arguments mkAccountSummary {A}.
Arguments account_total_balance {A}.
Arguments account_total_income {A}.
Arguments account_total_expense {A}.
Arguments transaction_count {A}.

(** ** storage.py *)

(** The data directory: [transactions.json], [categories.json] and the
    ["total_balance"] entry of [account.json]. *)
Record Store (A : Type) := mkStore {
  transactions_file : list (Transaction A);
  categories_file : list Category;
  total_balance : A
}.
Arguments mkStore {A}.
Arguments transactions_file {A}.
Arguments categories_file {A}.
Arguments total_balance {A}.

Module StorageManager.
Section Storage.
Context {A : Type} `{Amount A}.

Definition default_categories : list Category :=
  [ mkCategory "food" "expense" (Some "🍔");
    mkCategory "transport" "expense" (Some "🚗");
    mkCategory "shopping" "expense" (Some "🛍️");
    mkCategory "entertainment" "expense" (Some "🎬");
    mkCategory "salary" "income" (Some "💼");
    mkCategory "bonus" "income" (Some "🎁");
    mkCategory "investment" "income" (Some "📈") ].

(** [StorageManager(data_dir)] on an empty directory. *)
Definition init : Store A :=
  mkStore [] default_categories zero.

(** [not transaction.id]: no identifier, or the empty string. *)
Definition id_missing (t : Transaction A) : bool :=
  match tx_id t with
  | None => true
  | Some s => bool_decide (s = "")
  end.

(** [uuid] is the string [uuid4()] would draw. *)
Definition add_transaction (transaction : Transaction A) (uuid : string)
    (st : Store A) : Transaction A * Store A :=
  let transaction :=
    if id_missing transaction
    then mkTransaction (Some uuid) (tx_amount transaction)
           (tx_category transaction) (tx_description transaction)
           (tx_timestamp transaction) (tx_tags transaction)
    else transaction in
  let transactions := transactions_file st ++ [transaction] in
  let balance := add (total_balance st) (tx_amount transaction) in
  (transaction, mkStore transactions (categories_file st) balance).

(** Truth value of an [Optional[str]] argument. *)
Definition truthy_str (o : option string) : bool :=
  match o with
  | None => false
  | Some s => negb (bool_decide (s = ""))
  end.

(** The three [continue] guards of the listing loop, negated: [t] is
    kept.  A [datetime] object is always true, so a bound counts as soon
    as it is not [None]. *)
Definition kept (category : option string) (start_date end_date : option Z)
    (t : Transaction A) : bool :=
  negb (truthy_str category
        && negb (bool_decide (Some (tx_category t) = category)))
  && negb (match start_date with
           | Some s => tx_timestamp t <? s
           | None => false
           end)
  && negb (match end_date with
           | Some e => e <? tx_timestamp t
           | None => false
           end).

(** [result.sort(key=lambda x: x.timestamp, reverse=True)]: a stable
    sort, so [x], which stood before every element of [l], goes in front
    of the first element whose key is not greater. *)
Fixpoint insert_desc (x : Transaction A) (l : list (Transaction A))
    : list (Transaction A) :=
  match l with
  | [] => [x]
  | y :: l' =>
      if tx_timestamp y <=? tx_timestamp x then x :: y :: l'
      else y :: insert_desc x l'
  end.

Definition sort_desc (l : list (Transaction A)) : list (Transaction A) :=
  foldr insert_desc [] l.

Definition get_transactions (category : option string)
    (start_date end_date : option Z) (st : Store A) : list (Transaction A) :=
  sort_desc (filter (fun t => Is_true (kept category start_date end_date t))
               (transactions_file st)).

Definition get_categories (st : Store A) : list Category :=
  categories_file st.

Definition get_balance (st : Store A) : A :=
  total_balance st.

Definition get_summary (st : Store A) : AccountSummary A :=
  let transactions := get_transactions None None None st in
  let total_income :=
    py_sum (tx_amount <$> filter (fun t => Is_true (gt0 (tx_amount t))) transactions) in
  let total_expense :=
    py_sum ((fun t => absv (tx_amount t))
              <$> filter (fun t => Is_true (lt0 (tx_amount t))) transactions) in
  let total_balance := get_balance st in
  mkAccountSummary total_balance total_income total_expense (length transactions).

End Storage.
End StorageManager.

(** ** tools.py *)

(** The dictionary [add_transaction] returns: ["success"] is [False] with
    an ["error"] text and the ["available_categories"], or [True] with the
    saved ["transaction"] and the ["current_balance"]. *)
Inductive AddResult (A : Type) :=
  | AddFailure (error : string) (available_categories : list string)
  | AddSuccess (transaction : Transaction A) (current_balance : A).
Arguments AddFailure {A}.
Arguments AddSuccess {A}.

Definition success {A} (r : AddResult A) : bool :=
  match r with
  | AddFailure _ _ => false
  | AddSuccess _ _ => true
  end.

Module AccountingTools.
Section Tools.
Context {A : Type} `{Amount A}.

(** [now] is the reading of [datetime.now()] that stamps the new
    transaction, [uuid] the identifier [uuid4()] draws. *)
Definition add_transaction (amount : A) (category : string)
    (description : option string) (tags : option (list string))
    (now : Z) (uuid : string) (st : Store A) : AddResult A * Store A :=
  let categories := cat_name <$> StorageManager.get_categories st in
  if negb (bool_decide (category ∈ categories)) then
    (AddFailure ("分类 '" +:+ category +:+ "' 不存在") categories, st)
  else
    let transaction :=
      mkTransaction None amount category description now (default [] tags) in
    let '(saved_transaction, st) :=
      StorageManager.add_transaction transaction uuid st in
    let current_balance := StorageManager.get_balance st in
    (AddSuccess saved_transaction current_balance, st).

Definition get_balance (st : Store A) : A :=
  StorageManager.get_balance st.

(** [if days:] is false for [None] and for 0. *)
Definition list_transactions (category : option string) (days : option Z)
    (now : Z) (st : Store A) : list (Transaction A) * nat :=
  let start_date :=
    match days with
    | Some d => if d =? 0 then None else Some (now - Datetime.timedelta d 0)
    | None => None
    end in
  let transactions :=
    StorageManager.get_transactions category start_date None st in
  (transactions, length transactions).

(** [year or now.year]: [None] and 0 both fall back to the clock. *)
Definition or_now (o : option Z) (current : Z) : Z :=
  match o with
  | Some v => if v =? 0 then current else v
  | None => current
  end.

(** [f"{n:0{w}d}"]. *)
Definition zero_padded (w : nat) (n : Z) : string :=
  let pad s k := String.concat "" (replicate (k - String.length s) "0") +:+ s in
  if n <? 0 then "-" +:+ pad (pretty (- n)) (w - 1)%nat else pad (pretty n) w.

(** The bounds handed to the store: [datetime(y, m, 1)] and one second
    before the first day of the following month.  [None] when a
    [datetime] constructor raises. *)
Definition month_bounds (target_year target_month : Z) : option (Z * Z) :=
  start_date ← Datetime.month_start target_year target_month;
  next ← (if target_month =? 12
          then Datetime.month_start (target_year + 1) 1
          else Datetime.month_start target_year (target_month + 1));
  Some (start_date, next - Datetime.timedelta 0 1).

(** One turn of the accumulation loop, on a transaction of the month.  The
    entry read back by [+=] was created just above when it was missing, so
    the [default] never applies. *)
Definition book (category_expenses : gmap string A) (t : Transaction A)
    : gmap string A :=
  if lt0 (tx_amount t) then
    let category_expenses :=
      if bool_decide (tx_category t ∈ dom category_expenses)
      then category_expenses
      else <[tx_category t := zero]> category_expenses in
    <[tx_category t :=
        add (default zero (category_expenses !! tx_category t))
            (absv (tx_amount t))]>
      category_expenses
  else category_expenses.

Definition expenses_by_category (transactions : list (Transaction A))
    : gmap string A :=
  fold_left book transactions ∅.

(** The aggregation of the listed transactions. *)
Definition summarize (month_str : string)
    (transactions : list (Transaction A)) : MonthlySummary A :=
  let total_income :=
    py_sum (tx_amount <$> filter (fun t => Is_true (gt0 (tx_amount t))) transactions) in
  let total_expense :=
    py_sum ((fun t => absv (tx_amount t))
              <$> filter (fun t => Is_true (lt0 (tx_amount t))) transactions) in
  let balance_change := sub total_income total_expense in
  mkMonthlySummary month_str total_income total_expense balance_change
    (expenses_by_category transactions).

(** The transactions the summary of a month is computed from. *)
Definition month_transactions (target_year target_month : Z) (st : Store A)
    : option (list (Transaction A)) :=
  '(start_date, end_date) ← month_bounds target_year target_month;
  Some (StorageManager.get_transactions None (Some start_date) (Some end_date) st).

(** [now_year] and [now_month] are the fields of [datetime.now()];
    [None] is the [ValueError] of a date that does not exist. *)
Definition get_monthly_summary (year month : option Z)
    (now_year now_month : Z) (st : Store A) : option (MonthlySummary A) :=
  let target_year := or_now year now_year in
  let target_month := or_now month now_month in
  let month_str :=
    zero_padded 4 target_year +:+ "-" +:+ zero_padded 2 target_month in
  transactions ← month_transactions target_year target_month st;
  Some (summarize month_str transactions).

End Tools.
End AccountingTools.

(** ** server.py *)

(** A value decoded by [json.loads]. *)
Inductive json : Type :=
  | JNull
  | JBool (b : bool)
  | JInt (n : Z)
  | JFloat (f : float)
  | JStr (s : string)
  | JArr (l : list json)
  | JObj (m : gmap string json).

(** What a call leaves behind: an exception, or the value returned. *)
Definition outcome (exc R : Type) : Type := exc + R.

(** The transcript of one input line of the stdio loop. *)
Inductive printed :=
  | Printed (v : json)    (* one line written to stdout *)
  | Silent                (* nothing written, the loop goes on *)
  | Stopped.              (* an exception reached the handler around the
                             loop: nothing written, the loop is left *)

Module MCPServer.
Section Dispatcher.
(** [W] is the state the handlers work on, [exc] the exceptions an
    [except Exception] clause catches.  The texts Python makes of them are
    parameters. *)
Context {W exc : Type}.
Variable str : exc -> string.          (* str(e) *)
Variable format_exc : exc -> string.   (* traceback.format_exc() under e *)
Variable repr : json -> string.        (* a value that is no str, formatted *)
Variable unhashable : json -> exc.     (* TypeError: a list or dict as key *)
Variable no_get : json -> exc.         (* AttributeError: no method [get] *)

(** An entry [h] of [self.tools] stands for the call of [h] with
    [params] unpacked as its keyword arguments, their binding included.
    What a handler returns is a value [json.dumps] can write. *)
Definition tool : Type := json -> W -> outcome exc json * W.
Definition resource : Type := W -> outcome exc json * W.

Variable tools : gmap string tool.
Variable resources : gmap string resource.

(** [{value}] inside an f-string. *)
Definition format_value (v : json) : string :=
  match v with
  | JStr s => s
  | _ => repr v
  end.

(** [key in table] for a table keyed by strings: a list or a dict cannot
    be hashed, any other value that is not a string is simply absent. *)
Definition find {T : Type} (table : gmap string T) (key : json)
    : outcome exc (option T) :=
  match key with
  | JStr s => inr (table !! s)
  | JArr _ | JObj _ => inl (unhashable key)
  | _ => inr None
  end.

Definition error_object (code : Z) (message : string) (data : option string)
    : json :=
  JObj (match data with
        | Some d => {[ "code" := JInt code; "message" := JStr message;
                       "data" := JStr d ]}
        | None => {[ "code" := JInt code; "message" := JStr message ]}
        end).

Definition error_envelope (code : Z) (message : string)
    (data : option string) (id : json) : gmap string json :=
  {[ "jsonrpc" := JStr "2.0";
     "error" := error_object code message data;
     "id" := id ]}.

Definition result_envelope (result id : json) : gmap string json :=
  {[ "jsonrpc" := JStr "2.0"; "result" := result; "id" := id ]}.

(** [request.get("id")]. *)
Definition get_id (request : gmap string json) : json :=
  default JNull (request !! "id").

(** ["jsonrpc" in request and request["jsonrpc"] == "2.0"]: only the
    string "2.0" equals the string "2.0". *)
Definition version_ok (request : gmap string json) : bool :=
  match request !! "jsonrpc" with
  | Some (JStr s) => bool_decide (s = "2.0")
  | _ => false
  end.

(** Truth value of a dict: it has an entry. *)
Definition truthy (response : gmap string json) : bool :=
  negb (bool_decide (size response = 0%nat)).

(** The body of the outer [try] for a request that is a dict.  [inl e]:
    [e] is raised there, and caught by the outer [except]. *)
Definition dispatch (request : gmap string json) (w : W)
    : outcome exc (gmap string json) * W :=
  if negb (version_ok request) then
    (inr (error_envelope (-32600) "无效的JSON-RPC请求" None (get_id request)), w)
  else
    let request_id := get_id request in
    match request !! "method" with
    | Some method =>
        let params := default (JObj ∅) (request !! "params") in
        match find tools method with
        | inl e => (inl e, w)
        | inr None =>
            (inr (error_envelope (-32601)
                    ("方法 '" +:+ format_value method +:+ "' 不存在")
                    None request_id), w)
        | inr (Some handler) =>
            match handler params w with
            | (inr result, w) => (inr (result_envelope result request_id), w)
            | (inl e, w) =>
                (inr (error_envelope (-32602)
                        ("方法执行错误: " +:+ str e)
                        (Some (format_exc e)) request_id), w)
            end
        end
    | None =>
        match request !! "resource" with
        | Some resource =>
            match find resources resource with
            | inl e => (inl e, w)
            | inr None =>
                (inr (error_envelope (-32601)
                        ("资源 '" +:+ format_value resource +:+ "' 不存在")
                        None request_id), w)
            | inr (Some getter) =>
                match getter w with
                | (inr result, w) => (inr (result_envelope result request_id), w)
                | (inl e, w) =>
                    (inr (error_envelope (-32602)
                            ("资源访问错误: " +:+ str e) None request_id), w)
                end
            end
        | None =>
            (inr (error_envelope (-32600)
                    "请求必须包含 method 或 resource 字段" None request_id), w)
        end
    end.

(** [handle_request]: a request that is no dict fails inside the [try]
    and again on [request.get] in the [except] clause, so the
    [AttributeError] leaves the function. *)
Definition handle_request (request : json) (w : W)
    : outcome exc (gmap string json) * W :=
  match request with
  | JObj request =>
      match dispatch request w with
      | (inr response, w) => (inr response, w)
      | (inl e, w) =>
          (inr (error_envelope (-32603) ("内部错误: " +:+ str e)
                  (Some (format_exc e)) (get_id request)), w)
      end
  | _ => (inl (no_get request), w)
  end.

(** [response and "id" in response]. *)
Definition answered (response : gmap string json) : bool :=
  truthy response && bool_decide (is_Some (response !! "id")).

(** The [for req in request] loop shared by the two transports. *)
Fixpoint batch (request : list json) (responses : list (gmap string json))
    (w : W) : outcome exc (list (gmap string json)) * W :=
  match request with
  | [] => (inr responses, w)
  | req :: rest =>
      match handle_request req w with
      | (inl e, w) => (inl e, w)
      | (inr response, w) =>
          batch rest
            (if answered response then responses ++ [response] else responses)
            w
      end
  end.

(** [run], one parsed line. *)
Definition run (request : json) (w : W) : printed * W :=
  match request with
  | JArr request =>
      match batch request [] w with
      | (inl _, w) => (Stopped, w)
      | (inr responses, w) =>
          (match responses with
           | [] => Silent
           | _ => Printed (JArr (JObj <$> responses))
           end, w)
      end
  | _ =>
      match handle_request request w with
      | (inl _, w) => (Stopped, w)
      | (inr response, w) =>
          (if truthy response then Printed (JObj response) else Silent, w)
      end
  end.

(** One line that is not blank: [inl e] when [json.loads] raises the
    [JSONDecodeError] [e]. *)
Definition run_line (line : outcome exc json) (w : W) : printed * W :=
  match line with
  | inr request => run request w
  | inl e =>
      (Printed (JObj (error_envelope (-32700) ("JSON解析错误: " +:+ str e)
                        None JNull)), w)
  end.

(** The [while True] loop over the lines [stdin] delivers before it ends,
    blank lines left out: what is written to stdout, one value a line. *)
Fixpoint serve (lines : list (outcome exc json)) (w : W) : list json * W :=
  match lines with
  | [] => ([], w)
  | line :: lines =>
      match run_line line w with
      | (Printed v, w) => let '(out, w) := serve lines w in (v :: out, w)
      | (Silent, w) => serve lines w
      | (Stopped, w) => ([], w)
      end
  end.

End Dispatcher.

(** The keys of the two tables [__init__] builds. *)
Definition tool_names : list string :=
  [ "add_transaction"; "get_balance"; "list_transactions";
    "get_monthly_summary"; "process_voice_command" ].

Definition resource_names : list string :=
  [ "transactions://all"; "categories://all"; "summary://current" ].


(** *** The classification of a spoken description *)

(** [d[k] = v] on a dict kept as the list of its items: a key already
    present keeps its place and takes the new value, a new key goes last. *)
Fixpoint dict_set {V : Type} (k : string) (v : V) (d : list (string * V))
    : list (string * V) :=
  match d with
  | [] => [(k, v)]
  | (k', v') :: d' =>
      if bool_decide (k' = k) then (k', v) :: d'
      else (k', v') :: dict_set k v d'
  end.

(** A dict display: its items are entered from left to right. *)
Definition dict_display {V : Type} (items : list (string * V))
    : list (string * V) :=
  fold_left (fun d kv => dict_set kv.1 kv.2 d) items [].

Definition category_map : list (string * string) :=
  dict_display [
    ("午餐", "餐饮");
    ("早餐", "餐饮");
    ("晚餐", "餐饮");
    ("饭", "餐饮");
    ("吃", "餐饮");
    ("外卖", "餐饮");
    ("零食", "餐饮");
    ("咖啡", "餐饮");
    ("奶茶", "餐饮");
    ("水果", "餐饮");
    ("蔬菜", "餐饮");
    ("超市", "日用");
    ("购物", "购物");
    ("衣服", "购物");
    ("鞋", "购物");
    ("交通", "交通");
    ("打车", "交通");
    ("公交", "交通");
    ("地铁", "交通");
    ("加油", "交通");
    ("停车", "交通");
    ("电影", "娱乐");
    ("游戏", "娱乐");
    ("旅游", "娱乐");
    ("门票", "娱乐");
    ("话费", "通讯");
    ("手机", "通讯");
    ("网费", "通讯");
    ("电费", "水电");
    ("水费", "水电");
    ("燃气", "水电");
    ("房租", "住房");
    ("房贷", "住房");
    ("工资", "收入");
    ("奖金", "收入");
    ("红包", "收入");
    ("利息", "收入");
    ("兼职", "收入");
    ("医疗", "医疗");
    ("药品", "医疗");
    ("看病", "医疗");
    ("挂号", "医疗");
    ("学习", "教育");
    ("培训", "教育");
    ("书", "教育");
    ("学费", "教育");
    ("礼物", "人情");
    ("红包", "人情");
    ("请客", "人情") ].

(** [keyword in description], for two strings. *)
Fixpoint contains (keyword description : string) : bool :=
  String.prefix keyword description
  || match description with
     | EmptyString => false
     | String _ rest => contains keyword rest
     end.

(** The [for keyword, category in category_map.items()] loop; [None] when
    it ends without returning. *)
Fixpoint first_match (items : list (string * string)) (description : string)
    (categories : list string) : option string :=
  match items with
  | [] => None
  | (keyword, category) :: items =>
      if contains keyword description
         && bool_decide (category ∈ categories)
      then Some category
      else first_match items description categories
  end.

(** [st] is the store of the server, [self.storage]. *)
Definition _auto_classify {A : Type} (description : string) (st : Store A)
    : string :=
  let categories := cat_name <$> StorageManager.get_categories st in
  match first_match category_map description categories with
  | Some category => category
  | None =>
      if bool_decide ("其他" ∈ categories) then "其他"
      else match categories with
           | c :: _ => c
           | [] => "未分类"
           end
  end.

End MCPServer.

(** ** studio_server.py *)

Module StudioRequestHandler.
Section Post.
Context {W exc : Type}.
Variable str : exc -> string.
Variable format_exc : exc -> string.
Variable repr : json -> string.
Variable unhashable : json -> exc.
Variable no_get : json -> exc.
Variable tools : gmap string (@MCPServer.tool W exc).
Variable resources : gmap string (@MCPServer.resource W exc).

(** [do_POST] once the key is accepted and the body parsed: the status
    line and the body written back. *)
Definition do_POST (request : json) (w : W) : (Z * json) * W :=
  let handle :=
    MCPServer.handle_request str format_exc repr unhashable no_get
      tools resources in
  let failure e :=
    (500, JObj (MCPServer.error_envelope (-32603) ("内部错误: " +:+ str e)
                  (Some (format_exc e)) JNull)) in
  match request with
  | JArr request =>
      match MCPServer.batch str format_exc repr unhashable no_get
              tools resources request [] w with
      | (inr responses, w) => ((200, JArr (JObj <$> responses)), w)
      | (inl e, w) => (failure e, w)
      end
  | _ =>
      match handle request w with
      | (inr response, w) => ((200, JObj response), w)
      | (inl e, w) => (failure e, w)
      end
  end.

End Post.
End StudioRequestHandler.

(** ** Sequences of calls *)

(** The arguments of one [add_transaction] call, with what the call draws
    from the clock and from [uuid4]. *)
Record AddCall (A : Type) := mkAddCall {
  call_amount : A;
  call_category : string;
  call_description : option string;
  call_tags : option (list string);
  call_now : Z;
  call_uuid : string
}.
Arguments mkAddCall {A}.
Arguments call_amount {A}.
Arguments call_category {A}.
Arguments call_description {A}.
Arguments call_tags {A}.
Arguments call_now {A}.
Arguments call_uuid {A}.

Definition perform `{Amount A} (c : AddCall A) (st : Store A)
    : AddResult A * Store A :=
  AccountingTools.add_transaction (call_amount c) (call_category c)
    (call_description c) (call_tags c) (call_now c) (call_uuid c) st.

(** The calls made one after the other; the results, and the store left. *)
Fixpoint perform_all `{Amount A} (calls : list (AddCall A)) (st : Store A)
    : list (AddResult A) * Store A :=
  match calls with
  | [] => ([], st)
  | c :: calls =>
      let '(r, st) := perform c st in
      let '(rs, st) := perform_all calls st in
      (r :: rs, st)
  end.

(** ** The words of the specification *)

(** The filters of a listing: a supplied category is matched exactly, a
    supplied bound is inclusive. *)
Definition matches {A} (category : option string)
    (start_date end_date : option Z) (t : Transaction A) : Prop :=
  match category with Some c => tx_category t = c | None => True end
  ∧ match start_date with Some s => s ≤ tx_timestamp t | None => True end
  ∧ match end_date with Some e => tx_timestamp t ≤ e | None => True end.

#[export] Instance matches_dec {A} category start_date end_date
    (t : Transaction A) : Decision (matches category start_date end_date t).
Proof.
  unfold matches. destruct category, start_date, end_date; apply _.
Defined.

(** Most recent first. *)
Definition newer_first {A} (a b : Transaction A) : Prop :=
  tx_timestamp b ≤ tx_timestamp a.

(** An expense booked under category [c]. *)
Definition expense_in `{Amount A} (c : string) (t : Transaction A) : Prop :=
  Is_true (lt0 (tx_amount t)) ∧ tx_category t = c.

#[export] Instance expense_in_dec `{Amount A} c (t : Transaction A) :
  Decision (expense_in c t).
Proof. unfold expense_in. apply _. Defined.

(** The summary [s] aggregates the transactions [l]: income is the sum of
    the positive amounts, expense the sum of the absolute values of the
    negative ones, the change their difference, and the expenses by
    category have an entry for exactly the categories with an expense,
    holding the sum of their absolute values. *)
Definition aggregates `{Amount A} (s : MonthlySummary A)
    (l : list (Transaction A)) : Prop :=
  total_income s
    = py_sum (tx_amount <$> filter (λ t, Is_true (gt0 (tx_amount t))) l)
  ∧ total_expense s
    = py_sum ((λ t, absv (tx_amount t))
                <$> filter (λ t, Is_true (lt0 (tx_amount t))) l)
  ∧ balance_change s = sub (total_income s) (total_expense s)
  ∧ (∀ c, c ∈ dom (category_expenses s) ↔ ∃ t, t ∈ l ∧ expense_in c t)
  ∧ (∀ c v, category_expenses s !! c = Some v →
       v = py_sum ((λ t, absv (tx_amount t)) <$> filter (expense_in c) l)).

(** [t] lies in month [m] of year [y]: from the first instant of the month
    up to, and not including, the first instant of the next one. *)
Definition in_month {A} (y m : Z) (t : Transaction A) : Prop :=
  ∃ first next,
    Datetime.month_start y m = Some first
    ∧ (if m =? 12 then Datetime.month_start (y + 1) 1
       else Datetime.month_start y (m + 1)) = Some next
    ∧ first ≤ tx_timestamp t < next.

#[export] Instance in_month_dec {A} (y m : Z) (t : Transaction A) :
  Decision (in_month y m t).
Proof.
  unfold in_month.
  destruct (Datetime.month_start y m) as [first|];
    [|right; by intros (? & ? & [=] & _)].
  destruct (if m =? 12 then Datetime.month_start (y + 1) 1
            else Datetime.month_start y (m + 1)) as [next|];
    [|right; by intros (? & ? & _ & [=] & _)].
  destruct (decide (first ≤ tx_timestamp t < next)) as [Hin|Hout].
  - left. by exists first, next.
  - right. intros (? & ? & [= <-] & [= <-] & Hin). by apply Hout.
Defined.

(** The record an accepted call leaves in the log. *)
Definition saved {A} (c : AddCall A) : Transaction A :=
  mkTransaction (Some (call_uuid c)) (call_amount c) (call_category c)
    (call_description c) (call_now c) (default [] (call_tags c)).

(** The call names a category of the store. *)
Definition accepted {A} (st : Store A) (c : AddCall A) : Prop :=
  call_category c ∈ cat_name <$> categories_file st.

#[export] Instance accepted_dec {A} (st : Store A) (c : AddCall A) :
  Decision (accepted st c).
Proof. unfold accepted. apply _. Defined.

(** The value is a JSON object; a JSON array. *)
Definition is_object (v : json) : bool :=
  match v with JObj _ => true | _ => false end.

Definition is_array (v : json) : bool :=
  match v with JArr _ => true | _ => false end.

(** ** Ledgers used as examples *)

(** A lunch and a salary, both booked in January 2024 on a new ledger. *)
Definition january_calls : list (AddCall float) :=
  [ mkAddCall (-35)%float "food" (Some "lunch") None
      (default 0 (Datetime.datetime 2024 1 10 12 30 0 0)) "tx-1";
    mkAddCall 5000%float "salary" None None
      (default 0 (Datetime.datetime 2024 1 25 9 0 0 0)) "tx-2" ].

Definition january_ledger : Store float :=
  (perform_all january_calls StorageManager.init).2.

(** A lunch as the only record of a ledger. *)
Definition lunch : Transaction float :=
  mkTransaction (Some "tx-1") (-35)%float "food" (Some "lunch")
    (default 0 (Datetime.datetime 2024 1 15 12 30 0 0)) [].

Definition one_lunch : Store float :=
  mkStore [lunch] StorageManager.default_categories (-35)%float.

(** A snack bought half a second before the midnight that ends January. *)
Definition late_snack : Transaction float :=
  mkTransaction (Some "tx-9") (-12)%float "food" (Some "snack")
    (default 0 (Datetime.datetime 2024 1 31 23 59 59 500000)) [].

Definition one_late_snack : Store float :=
  mkStore [late_snack] StorageManager.default_categories (-12)%float.

(** The month of the specification's scenario, an expense of 35 and an
    income of 5000, with the expense paid half a second before the
    midnight that ends January. *)
Definition late_january_calls : list (AddCall float) :=
  [ mkAddCall 5000%float "salary" None None
      (default 0 (Datetime.datetime 2024 1 25 9 0 0 0)) "tx-1";
    mkAddCall (-35)%float "food" (Some "dinner") None
      (default 0 (Datetime.datetime 2024 1 31 23 59 59 500000)) "tx-2" ].

Definition late_january_ledger : Store float :=
  (perform_all late_january_calls StorageManager.init).2.

(** ** Requests used as examples *)

(** A notification: a call of [get_balance] that carries no ["id"]. *)
Definition notification : gmap string json :=
  {[ "jsonrpc" := JStr "2.0"; "method" := JStr "get_balance" ]}.

(** A handler that cannot be called without an ["amount"]: binding the
    keyword arguments raises when it is missing. *)
Definition needs_amount : @MCPServer.tool unit string :=
  λ params w,
    match params with
    | JObj kw =>
        if bool_decide (is_Some (kw !! "amount")) then (inr JNull, w)
        else (inl "missing 1 required positional argument: 'amount'", w)
    | _ => (inl "argument after ** must be a mapping", w)
    end.

Definition example_tools : gmap string (@MCPServer.tool unit string) :=
  {[ "add_transaction" := needs_amount ]}.

Definition example_resources : gmap string (@MCPServer.resource unit string) :=
  ∅.

(** A call of [add_transaction] without parameters, and an envelope
    without the version tag. *)
Definition bare_call : gmap string json :=
  {[ "jsonrpc" := JStr "2.0"; "method" := JStr "add_transaction";
     "id" := JInt 7 ]}.

Definition untagged : gmap string json :=
  {[ "method" := JStr "get_balance"; "id" := JInt 1 ]}.


(** Noon on 2024-02-01, as the clock of a call. *)
Definition february_noon : Z :=
  default 0 (Datetime.datetime 2024 2 1 12 0 0 0).

(** A call of [add_transaction] with its amount, an unknown method, a
    method that is a list, a fetch of an unknown resource. *)
Definition full_call : gmap string json :=
  {[ "jsonrpc" := JStr "2.0"; "method" := JStr "add_transaction";
     "params" := JObj {[ "amount" := JInt 5 ]}; "id" := JInt 8 ]}.

Definition unknown_call : gmap string json :=
  {[ "jsonrpc" := JStr "2.0"; "method" := JStr "delete_everything";
     "id" := JInt 9 ]}.

Definition list_call : gmap string json :=
  {[ "jsonrpc" := JStr "2.0"; "method" := JArr [JStr "get_balance"];
     "id" := JInt 10 ]}.

Definition fetch : gmap string json :=
  {[ "jsonrpc" := JStr "2.0"; "resource" := JStr "budgets://all";
     "id" := JInt 11 ]}.

(** * Properties of the ledger *)

Section LedgerProperties.
Context {A : Type} `{Amount A}.
Implicit Types (st : Store A) (t : Transaction A) (c : AddCall A).

Lemma perform_inv c st :
  (success (perform c st).1 = false ∧ (perform c st).2 = st)
  ∨ (success (perform c st).1 = true
     ∧ total_balance (perform c st).2 = add (total_balance st) (call_amount c)
     ∧ length (transactions_file (perform c st).2)
       = S (length (transactions_file st))).
Proof.
  unfold perform, AccountingTools.add_transaction.
  case_bool_decide; simpl.
  - right. repeat split. by rewrite length_app, Nat.add_1_r.
  - left. done.
Qed.

Lemma perform_all_balance calls : ∀ st,
  Forall (fun r => success r = true) (perform_all calls st).1 →
  total_balance (perform_all calls st).2
  = fold_left add (call_amount <$> calls) (total_balance st).
Proof.
  induction calls as [|c calls IH]; intros st; simpl; [done|].
  destruct (perform c st) as [r st1] eqn:E1.
  destruct (perform_all calls st1) as [rs st2] eqn:E2. simpl.
  intros Hall. apply Forall_cons in Hall as [Hr Hrs].
  specialize (IH st1). rewrite E2 in IH. simpl in IH. rewrite IH by done.
  destruct (perform_inv c st) as [[Hf _]|(_ & Hb & _)];
    rewrite E1 in *; simpl in *; [congruence|by rewrite Hb].
Qed.

(** C1. Starting from a freshly initialised store, after any sequence of
    [add_transaction] calls that all succeed, [get_balance] is the sum of
    the amounts of the calls; and the total is kept incrementally: one
    successful call, on any store, adds exactly its amount to the stored
    balance. *)
Theorem balance_is_sum_of_amounts (calls : list (AddCall A)) :
  Forall (fun r => success r = true)
    (perform_all calls StorageManager.init).1 →
  StorageManager.get_balance (perform_all calls StorageManager.init).2
    = py_sum (call_amount <$> calls)
  ∧ ∀ c st, success (perform c st).1 = true →
      StorageManager.get_balance (perform c st).2
      = add (StorageManager.get_balance st) (call_amount c).
Proof.
  intros Hall. split.
  - unfold StorageManager.get_balance, py_sum.
    by rewrite perform_all_balance.
  - intros c st Hs. unfold StorageManager.get_balance.
    destruct (perform_inv c st) as [[Hf _]|(_ & Hb & _)]; congruence.
Qed.

(** C2. A call of [add_transaction] whose category is none of the names
    [get_categories] returns comes back with a result whose ["success"]
    is false, and leaves the store as it was: the same transactions, the
    same balance. *)
Theorem unknown_category_rejected (amount : A) (category : string)
    (description : option string) (tags : option (list string))
    (now : Z) (uuid : string) st :
  category ∉ cat_name <$> StorageManager.get_categories st →
  let '(result, st') :=
    AccountingTools.add_transaction amount category description tags
      now uuid st in
  success result = false
  ∧ st' = st
  ∧ transactions_file st' = transactions_file st
  ∧ StorageManager.get_balance st' = StorageManager.get_balance st.
Proof.
  intros Hnot. unfold AccountingTools.add_transaction.
  rewrite bool_decide_eq_false_2 by done. simpl. done.
Qed.

End LedgerProperties.


(** * Properties of the listing *)

Section ListingProperties.
Context {A : Type} `{Amount A}.
Implicit Types (st : Store A) (t : Transaction A) (l : list (Transaction A)).

Lemma insert_desc_perm t l : StorageManager.insert_desc t l ≡ₚ t :: l.
Proof.
  induction l as [|y l IH]; simpl; [done|].
  case_match; [done|]. rewrite IH. apply Permutation_swap.
Qed.

Lemma sort_desc_perm l : StorageManager.sort_desc l ≡ₚ l.
Proof.
  induction l as [|t l IH]; simpl; [done|].
  rewrite insert_desc_perm. by f_equiv.
Qed.

Lemma insert_desc_sorted t l :
  StronglySorted newer_first l →
  StronglySorted newer_first (StorageManager.insert_desc t l).
Proof.
  induction 1 as [|y l Hs IH Hy]; simpl.
  - repeat constructor.
  - destruct (tx_timestamp y <=? tx_timestamp t) eqn:E.
    + apply Z.leb_le in E. constructor; [by constructor|].
      constructor; [done|].
      eapply Forall_impl; [exact Hy|]. unfold newer_first. intros; lia.
    + apply Z.leb_gt in E. constructor; [done|].
      rewrite insert_desc_perm. constructor; [|done].
      unfold newer_first. lia.
Qed.

Lemma sort_desc_sorted l :
  StronglySorted newer_first (StorageManager.sort_desc l).
Proof.
  induction l as [|t l IH]; simpl; [constructor|].
  by apply insert_desc_sorted.
Qed.

(** The guards of the loop agree with the filters of the specification as
    soon as the category argument is not the empty string. *)
Lemma kept_matches category start_date end_date t :
  category ≠ Some "" →
  Is_true (StorageManager.kept category start_date end_date t)
  ↔ matches category start_date end_date t.
Proof.
  intros Hne. unfold StorageManager.kept, matches.
  rewrite !andb_True, !negb_True.
  assert (Hcat : ¬ Is_true (StorageManager.truthy_str category
                     && negb (bool_decide (Some (tx_category t) = category)))
                 ↔ match category with
                   | Some c => tx_category t = c
                   | None => True
                   end).
  { destruct category as [c|]; simpl; [|tauto].
    rewrite andb_True, !negb_True, !bool_decide_spec.
    split.
    - intros Hc. destruct (decide (tx_category t = c)) as [|Hn]; [done|].
      exfalso. apply Hc. split; congruence.
    - intros <- [_ Hn]. by apply Hn. }
  rewrite Hcat.
  destruct start_date as [s|], end_date as [e|];
    repeat match goal with
           | |- context [?a <? ?b] => destruct (Z.ltb_spec a b)
           end; simpl; intuition lia.
Qed.

Lemma filter_all (P : Transaction A → Prop) `{∀ t, Decision (P t)} l :
  (∀ t, P t) → filter P l = l.
Proof.
  intros HP. induction l as [|t l IH]; [done|].
  rewrite filter_cons_True by done. by rewrite IH.
Qed.

(** What a listing holds, whatever the arguments: the stored transactions
    the loop keeps, most recent first. *)
Lemma get_transactions_kept category start_date end_date st :
  StorageManager.get_transactions category start_date end_date st
    ≡ₚ filter (λ t, Is_true (StorageManager.kept category start_date end_date t))
         (transactions_file st)
  ∧ StronglySorted newer_first
      (StorageManager.get_transactions category start_date end_date st).
Proof.
  unfold StorageManager.get_transactions. split.
  - apply sort_desc_perm.
  - apply sort_desc_sorted.
Qed.

(** C4, amended. For a category argument that is absent or a non-empty
    string, and for any choice of bounds, the listing holds exactly the
    stored transactions that match all the supplied filters (category
    equal, timestamp between the bounds, both inclusive), and it is ordered
    by timestamp, most recent first. *)
Theorem listing_filters_and_order category start_date end_date st :
  category ≠ Some "" →
  StorageManager.get_transactions category start_date end_date st
    ≡ₚ filter (matches category start_date end_date) (transactions_file st)
  ∧ StronglySorted newer_first
      (StorageManager.get_transactions category start_date end_date st).
Proof.
  intros Hne.
  destruct (get_transactions_kept category start_date end_date st) as [Hp Hs].
  split; [|done]. rewrite Hp.
  erewrite list_filter_iff; [done|].
  intros t. by apply kept_matches.
Qed.

(** C9. An empty string as category filters nothing: the store lists, and
    the tool returns, what they do with no category at all; without bounds
    that is every stored transaction, whatever its category. *)
Theorem empty_category_is_no_filter start_date end_date days now st :
  StorageManager.get_transactions (Some "") start_date end_date st
    = StorageManager.get_transactions None start_date end_date st
  ∧ AccountingTools.list_transactions (Some "") days now st
    = AccountingTools.list_transactions None days now st
  ∧ StorageManager.get_transactions (Some "") None None st
    ≡ₚ transactions_file st.
Proof.
  split; [done|]. split; [done|].
  unfold StorageManager.get_transactions. rewrite sort_desc_perm.
  by rewrite filter_all.
Qed.

End ListingProperties.

(** C4 as stated fails for the empty string: asked for category [""], the
    ledger whose only record is a lunch under ["food"] lists that lunch,
    although no stored transaction has the empty category. *)
Lemma listing_empty_category_counterexample :
  ¬ (StorageManager.get_transactions (Some "") None None one_lunch
       ≡ₚ filter (matches (Some "") None None) (transactions_file one_lunch)).
Proof.
  intros Hp. apply Permutation_length in Hp. vm_compute in Hp. discriminate.
Qed.

Lemma listing_filters_and_order_witness :
  StorageManager.get_transactions (Some "food") None None one_lunch
    ≡ₚ filter (matches (Some "food") None None) (transactions_file one_lunch)
  ∧ StronglySorted newer_first
      (StorageManager.get_transactions (Some "food") None None one_lunch).
Proof.
  apply (listing_filters_and_order (Some "food") None None one_lunch).
  discriminate.
Defined.

(** * Properties of the monthly summary *)

Section SummaryProperties.
Context {A : Type} `{Amount A}.
Implicit Types (st : Store A) (t : Transaction A) (l : list (Transaction A)).

Lemma book_lookup (m : gmap string A) t c :
  AccountingTools.book m t !! c
  = if decide (expense_in c t)
    then Some (add (default zero (m !! c)) (absv (tx_amount t)))
    else m !! c.
Proof.
  unfold AccountingTools.book.
  destruct (decide (expense_in c t)) as [[Hlt <-]|Hn].
  - destruct (lt0 (tx_amount t)); [simpl|done].
    rewrite lookup_insert_eq.
    case_bool_decide as Hin; [done|].
    rewrite lookup_insert_eq. apply not_elem_of_dom in Hin.
    by rewrite Hin.
  - destruct (lt0 (tx_amount t)) eqn:Hlt; [simpl|done].
    assert (tx_category t ≠ c) as Hne.
    { intros Hc. apply Hn. split; [by rewrite Hlt|done]. }
    rewrite lookup_insert_ne by done.
    case_bool_decide; [done|]. by rewrite lookup_insert_ne.
Qed.

Lemma fold_book_lookup l : ∀ (m : gmap string A) c,
  fold_left AccountingTools.book l m !! c
  = match filter (expense_in c) l with
    | [] => m !! c
    | l' => Some (fold_left add ((λ t, absv (tx_amount t)) <$> l')
                    (default zero (m !! c)))
    end.
Proof.
  induction l as [|t l IH]; intros m c; simpl; [done|].
  rewrite IH, book_lookup, filter_cons.
  destruct (decide (expense_in c t)); simpl.
  - by destruct (filter (expense_in c) l).
  - done.
Qed.

Lemma expenses_by_category_lookup l c :
  AccountingTools.expenses_by_category l !! c
  = match filter (expense_in c) l with
    | [] => None
    | l' => Some (py_sum ((λ t, absv (tx_amount t)) <$> l'))
    end.
Proof.
  unfold AccountingTools.expenses_by_category.
  rewrite fold_book_lookup. by rewrite lookup_empty.
Qed.

Lemma summarize_aggregates month_str l :
  aggregates (AccountingTools.summarize month_str l) l.
Proof.
  unfold aggregates, AccountingTools.summarize; simpl.
  repeat split; try done.
  - intros Hin. apply elem_of_dom in Hin as [v Hv].
    rewrite expenses_by_category_lookup in Hv.
    destruct (filter (expense_in c) l) as [|t l'] eqn:E; [done|].
    exists t. apply and_comm, (list_elem_of_filter (expense_in c)).
    rewrite E. left.
  - intros (t & Hin & Ht). apply elem_of_dom.
    rewrite expenses_by_category_lookup.
    destruct (filter (expense_in c) l) as [|t' l'] eqn:E; [|done].
    assert (t ∈ filter (expense_in c) l) as Hf
      by (by apply list_elem_of_filter).
    rewrite E in Hf. by apply elem_of_nil in Hf.
  - intros c v Hv. rewrite expenses_by_category_lookup in Hv.
    destruct (filter (expense_in c) l); by simplify_eq.
Qed.

End SummaryProperties.

(** C8, where the code departs from it. The month of the scenario, one
    income of 5000 and one expense of 35, both within January 2024, the
    expense paid at 23:59:59.5 on the 31st.  The summary of January
    reports the income and no expense at all: [total_expense] is 0,
    [balance_change] is 5000 and [category_expenses] is empty, so it does
    not aggregate the transactions of the month, in whatever order they
    are taken. *)
Theorem summary_misses_last_second_expense :
  Forall (in_month 2024 1) (transactions_file late_january_ledger)
  ∧ saved (mkAddCall (-35)%float "food" (Some "dinner") None
             (default 0 (Datetime.datetime 2024 1 31 23 59 59 500000)) "tx-2")
      ∈ transactions_file late_january_ledger
  ∧ AccountingTools.get_monthly_summary (Some 2024) (Some 1) 2026 11
      late_january_ledger
    = Some (mkMonthlySummary "2024-01" 5000%float 0%float 5000%float ∅)
  ∧ ∀ l, l ≡ₚ transactions_file late_january_ledger →
      ¬ aggregates
          (mkMonthlySummary "2024-01" 5000%float 0%float 5000%float ∅) l.
Proof.
  split; [apply (bool_decide_unpack _); vm_compute; reflexivity|].
  split; [right; left|].
  split; [vm_compute; reflexivity|].
  intros l Hl (_ & _ & _ & Hdom & _).
  assert ("food" ∈ dom (∅ : gmap string float)) as Hin;
    [|by rewrite dom_empty_L in Hin; apply not_elem_of_empty in Hin].
  apply Hdom. eexists. split.
  - rewrite Hl. right. left.
  - split; [|reflexivity]. vm_compute. exact I.
Qed.

Section MonthWindow.
Context {A : Type} `{Amount A}.
Implicit Types (st : Store A) (t : Transaction A) (l : list (Transaction A)).

(** The window the code applies: closed on both sides, and ending one
    whole second before the next month starts. *)
Lemma month_transactions_window y m st l :
  AccountingTools.month_transactions y m st = Some l →
  ∃ first next,
    Datetime.month_start y m = Some first
    ∧ (if m =? 12 then Datetime.month_start (y + 1) 1
       else Datetime.month_start y (m + 1)) = Some next
    ∧ ∀ t, t ∈ l ↔
        t ∈ transactions_file st
        ∧ first ≤ tx_timestamp t ≤ next - Datetime.second_us.
Proof.
  unfold AccountingTools.month_transactions, AccountingTools.month_bounds.
  destruct (Datetime.month_start y m) as [first|]; simpl; [|done].
  destruct (if m =? 12 then _ else _) as [next|]; simpl; [|done].
  intros [= <-]. exists first, next. split; [done|]. split; [done|].
  intros t.
  destruct (get_transactions_kept None (Some first)
              (Some (next - Datetime.timedelta 0 1)) st) as [Hp _].
  rewrite Hp, list_elem_of_filter, kept_matches by done.
  unfold matches, Datetime.timedelta. simpl. intuition lia.
Qed.

End MonthWindow.

(** C7, where the code departs from it. A snack stamped 2024-01-31
    23:59:59.5 lies in January 2024, between the first instant of January
    and the first instant of February.  The summary of January is
    nevertheless computed from no transaction at all, and so is that of
    February: the record is counted in no month. *)
Theorem last_second_of_month_is_dropped :
  in_month 2024 1 late_snack
  ∧ late_snack ∈ transactions_file one_late_snack
  ∧ AccountingTools.month_transactions 2024 1 one_late_snack = Some []
  ∧ AccountingTools.get_monthly_summary (Some 2024) (Some 1) 2026 11
      one_late_snack
    = Some (mkMonthlySummary "2024-01" 0%float 0%float 0%float ∅)
  ∧ AccountingTools.month_transactions 2024 2 one_late_snack = Some [].
Proof.
  split.
  { eexists _, _. split; [vm_compute; reflexivity|].
    split; [vm_compute; reflexivity|]. vm_compute. split; congruence. }
  split; [left|]. 
  split; [vm_compute; reflexivity|].
  split; vm_compute; reflexivity.
Qed.

(** * Properties of the dispatcher *)

Section DispatcherProperties.
Context {W exc : Type}.
Context (str format_exc : exc → string) (repr : json → string)
        (unhashable no_get : json → exc).
Implicit Types (request response : gmap string json) (w : W)
  (tools : gmap string (@MCPServer.tool W exc))
  (resources : gmap string (@MCPServer.resource W exc))
  (handler : @MCPServer.tool W exc).

#[local] Abbreviation handle_request :=
  (MCPServer.handle_request str format_exc repr unhashable no_get).
#[local] Abbreviation dispatch :=
  (MCPServer.dispatch str format_exc repr unhashable).
#[local] Abbreviation batch :=
  (MCPServer.batch str format_exc repr unhashable no_get).
#[local] Abbreviation run := (MCPServer.run str format_exc repr unhashable no_get).

Lemma version_ok_spec request :
  MCPServer.version_ok request = true
  ↔ request !! "jsonrpc" = Some (JStr "2.0").
Proof.
  unfold MCPServer.version_ok.
  destruct (request !! "jsonrpc") as [[]|]; try (split; [done|congruence]).
  rewrite bool_decide_eq_true. split; congruence.
Qed.



Lemma truthy_lookup response k v :
  response !! k = Some v → MCPServer.truthy response = true.
Proof.
  intros Hk. unfold MCPServer.truthy.
  rewrite bool_decide_eq_false_2; [done|].
  intros Hs. apply map_size_empty_inv in Hs. by rewrite Hs in Hk.
Qed.

Lemma answered_id response id :
  response !! "id" = Some id → MCPServer.answered response = true.
Proof.
  intros Hid. unfold MCPServer.answered.
  rewrite (truthy_lookup _ _ _ Hid), Hid. done.
Qed.

(** Every request that is a dict is answered by a dict that has an
    ["id"] entry: the identifier of the request, [null] when it has none. *)
Lemma handle_request_has_id tools resources request w :
  ∃ response w',
    handle_request tools resources (JObj request) w = (inr response, w')
    ∧ response !! "id" = Some (MCPServer.get_id request).
Proof.
  unfold MCPServer.handle_request, MCPServer.dispatch.
  destruct (MCPServer.version_ok request); simpl; [|by eexists _, _].
  destruct (request !! "method") as [method|].
  - destruct (MCPServer.find unhashable tools method) as [e|[handler|]];
      [by eexists _, _| |by eexists _, _].
    destruct (handler _ w) as [[e|result] w']; by eexists _, _.
  - destruct (request !! "resource") as [resource|]; [|by eexists _, _].
    destruct (MCPServer.find unhashable resources resource) as [e|[getter|]];
      [by eexists _, _| |by eexists _, _].
    destruct (getter w) as [[e|result] w']; by eexists _, _.
Qed.

(** C5. An envelope without the version tag, or with another tag than
    ["2.0"], is answered by an error envelope of code -32600 that carries
    the identifier of the request, [null] when it has none; so is an
    envelope with neither a method nor a resource.  The answer is the same
    whatever the two tables hold, and the state is untouched: nothing is
    looked up, nothing is called. *)
Theorem invalid_request_rejected request w :
  request !! "jsonrpc" ≠ Some (JStr "2.0")
  ∨ (request !! "method" = None ∧ request !! "resource" = None) →
  ∃ message, ∀ tools resources,
    handle_request tools resources (JObj request) w
    = (inr (MCPServer.error_envelope (-32600) message None
              (default JNull (request !! "id"))), w).
Proof.
  intros Hbad. unfold MCPServer.handle_request, MCPServer.dispatch.
  destruct (MCPServer.version_ok request) eqn:Hv; simpl.
  - destruct Hbad as [Hbad|[-> ->]].
    + by apply version_ok_spec in Hv.
    + by eexists.
  - by eexists.
Qed.



Lemma batch_cons tools resources req rest responses w :
  batch tools resources (req :: rest) responses w
  = match handle_request tools resources req w with
    | (inl e, w) => (inl e, w)
    | (inr response, w) =>
        batch tools resources rest
          (if MCPServer.answered response then responses ++ [response]
           else responses) w
    end.
Proof. done. Qed.

Lemma batch_answers_every_envelope tools resources
    (requests : list (gmap string json)) : ∀ responses w,
  ∃ more w',
    batch tools resources (JObj <$> requests) responses w
    = (inr (responses ++ more), w')
    ∧ Forall2 (λ request response,
                 response !! "id" = Some (MCPServer.get_id request))
        requests more.
Proof.
  induction requests as [|request requests IH]; intros responses w.
  - exists [], w. by rewrite app_nil_r.
  - rewrite fmap_cons, batch_cons.
    destruct (handle_request_has_id tools resources request w)
      as (response & w1 & -> & Hid).
    rewrite (answered_id _ _ Hid).
    destruct (IH (responses ++ [response]) w1) as (more & w' & -> & Hall).
    exists (response :: more), w'. rewrite <- app_assoc. split; [done|].
    by constructor.
Qed.

(** C3, where the code departs from it. A batch made of one notification (no
    ["id"]) is answered on stdout by an array of one envelope, whose
    ["id"] is [null]: the test ["id" in response] never fails, since every
    envelope the dispatcher builds has that entry.  Over HTTP an empty
    batch is answered by an empty array. *)
Theorem notification_batch_is_answered tools resources w :
  (∃ response w',
     run tools resources (JArr [JObj notification]) w
     = (Printed (JArr [JObj response]), w')
     ∧ notification !! "id" = None
     ∧ response !! "id" = Some JNull)
  ∧ StudioRequestHandler.do_POST str format_exc repr unhashable no_get
      tools resources (JArr []) w
    = ((200, JArr []), w).
Proof.
  split; [|done].
  destruct (batch_answers_every_envelope tools resources [notification] [] w)
    as (more & w' & Hb & Hall).
  apply Forall2_cons_inv_l in Hall as (response & rest & Hid & Hrest & ->).
  apply Forall2_nil_inv_l in Hrest as ->.
  exists response, w'. unfold MCPServer.run.
  change (JObj <$> [notification]) with [JObj notification] in Hb.
  rewrite Hb. done.
Qed.

End DispatcherProperties.

Lemma invalid_request_rejected_witness :
  ∃ message, ∀ tools resources,
    MCPServer.handle_request id id (λ _, "") (λ _, "unhashable")
      (λ _, "no attribute get") tools resources (JObj untagged) ()
    = (inr (MCPServer.error_envelope (-32600) message None (JInt 1)), ()).
Proof.
  apply (invalid_request_rejected id id (λ _, "") (λ _, "unhashable")
           (λ _, "no attribute get") untagged ()).
  left. vm_compute. discriminate.
Defined.



(** * The ledger properties at work *)

Lemma balance_is_sum_of_amounts_witness :
  StorageManager.get_balance
    (perform_all january_calls StorageManager.init).2
    = py_sum (call_amount <$> january_calls)
  ∧ ∀ c (st : Store float), success (perform c st).1 = true →
      StorageManager.get_balance (perform c st).2
      = add (StorageManager.get_balance st) (call_amount c).
Proof.
  apply (balance_is_sum_of_amounts january_calls).
  repeat constructor.
Defined.

Lemma unknown_category_rejected_witness :
  let '(result, st') :=
    AccountingTools.add_transaction 12%float "nonexistent" None None 0 "tx-3"
      january_ledger in
  success result = false
  ∧ st' = january_ledger
  ∧ transactions_file st' = transactions_file january_ledger
  ∧ StorageManager.get_balance st' = StorageManager.get_balance january_ledger.
Proof.
  apply (unknown_category_rejected 12%float "nonexistent" None None 0 "tx-3"
           january_ledger).
  apply (bool_decide_eq_false_1
           ("nonexistent" ∈ cat_name <$> StorageManager.get_categories january_ledger)).
  vm_compute. reflexivity.
Defined.

(** * Further properties of the ledger *)

Section LedgerLog.
Context {A : Type} `{Amount A}.
Implicit Types (st : Store A) (t : Transaction A) (c : AddCall A).

Lemma perform_accepted c st :
  accepted st c →
  perform c st
  = (AddSuccess (saved c) (add (total_balance st) (call_amount c)),
     mkStore (transactions_file st ++ [saved c]) (categories_file st)
       (add (total_balance st) (call_amount c))).
Proof.
  intros Hc. unfold perform, AccountingTools.add_transaction.
  rewrite bool_decide_eq_true_2 by done. done.
Qed.

Lemma perform_rejected c st :
  ¬ accepted st c → (perform c st).2 = st ∧ success (perform c st).1 = false.
Proof.
  intros Hc. unfold perform, AccountingTools.add_transaction.
  rewrite bool_decide_eq_false_2 by done. done.
Qed.

Lemma perform_all_store calls : ∀ st,
  (perform_all calls st).2
  = mkStore (transactions_file st ++ (saved <$> filter (accepted st) calls))
      (categories_file st)
      (fold_left add (call_amount <$> filter (accepted st) calls)
         (total_balance st)).
Proof.
  induction calls as [|c calls IH]; intros st; simpl.
  - rewrite app_nil_r. by destruct st.
  - destruct (perform c st) as [r st1] eqn:E1.
    destruct (perform_all calls st1) as [rs st2] eqn:E2. simpl.
    specialize (IH st1). rewrite E2 in IH. simpl in IH. subst st2.
    destruct (decide (accepted st c)) as [Hc|Hc].
    + rewrite (perform_accepted c st Hc) in E1. injection E1 as <- <-.
      rewrite filter_cons_True by done. simpl.
      by rewrite <- app_assoc.
    + pose proof (perform_rejected c st Hc) as [Hst _].
      rewrite E1 in Hst. simpl in Hst. subst st1.
      by rewrite filter_cons_False.
Qed.

(** X2. Whatever calls are made on a store, the log afterwards is the log
    before followed by one record for each call that named a stored
    category, in the order of the calls; refused calls leave no trace, no
    record is removed or changed, and the categories stay as they were. *)
Theorem log_is_the_accepted_calls calls st :
  let st' := (perform_all calls st).2 in
  transactions_file st'
    = transactions_file st ++ (saved <$> filter (accepted st) calls)
  ∧ categories_file st' = categories_file st.
Proof. simpl. by rewrite perform_all_store. Qed.

(** X3. If the stored balance is the sum of the amounts of the log, it
    still is after any sequence of [add_transaction] calls, accepted or
    refused. *)
Theorem balance_matches_the_log calls st :
  total_balance st = py_sum (tx_amount <$> transactions_file st) →
  let st' := (perform_all calls st).2 in
  StorageManager.get_balance st' = py_sum (tx_amount <$> transactions_file st').
Proof.
  intros Hinv. simpl. rewrite perform_all_store. simpl.
  unfold StorageManager.get_balance, py_sum in *. simpl.
  rewrite fmap_app, fold_left_app, <- Hinv.
  f_equal. rewrite <- list_fmap_compose. done.
Qed.

(** X4. On a new ledger, when the identifiers drawn for the calls are
    pairwise distinct, every stored transaction has an identifier and no
    two stored transactions share one. *)
Theorem distinct_uuids_give_distinct_ids calls :
  NoDup (call_uuid <$> calls) →
  NoDup (tx_id <$>
           transactions_file (perform_all calls StorageManager.init).2)
  ∧ Forall (λ t, is_Some (tx_id t))
      (transactions_file (perform_all calls StorageManager.init).2).
Proof.
  intros Hnd. rewrite perform_all_store. simpl.
  set (ok := filter (accepted StorageManager.init) calls).
  split.
  - rewrite <- list_fmap_compose.
    change (tx_id ∘ saved) with (Some ∘ (call_uuid (A:=A))).
    rewrite list_fmap_compose.
    apply (NoDup_fmap_2 Some).
    assert (call_uuid <$> ok `sublist_of` call_uuid <$> calls) as Hsub
      by apply fmap_sublist, sublist_filter.
    exact (sublist_NoDup _ _ Hnd Hsub).
  - apply Forall_fmap, Forall_forall. intros c _. by eexists.
Qed.

End LedgerLog.

Section LedgerReads.
Context {A : Type} `{Amount A}.
Implicit Types (st : Store A) (t : Transaction A) (l : list (Transaction A)).

Lemma elem_of_get_transactions category start_date end_date st t :
  t ∈ StorageManager.get_transactions category start_date end_date st
  ↔ Is_true (StorageManager.kept category start_date end_date t)
    ∧ t ∈ transactions_file st.
Proof.
  destruct (get_transactions_kept category start_date end_date st) as [Hp _].
  rewrite Hp. apply (list_elem_of_filter (λ t, Is_true (StorageManager.kept category start_date end_date t))).
Qed.

(** X1. A call of [add_transaction] that names a stored category returns
    the record it saved (the drawn identifier, the arguments, the clock
    reading, no tags unless given) with the new balance, which is the old
    one plus the amount; the record is then found by a listing without
    filter and by a listing for its category. *)
Theorem added_transaction_is_listed amount category description tags now uuid st :
  category ∈ cat_name <$> StorageManager.get_categories st →
  ∃ t st',
    AccountingTools.add_transaction amount category description tags now uuid st
    = (AddSuccess t (StorageManager.get_balance st'), st')
    ∧ t = mkTransaction (Some uuid) amount category description now
            (default [] tags)
    ∧ t ∈ StorageManager.get_transactions None None None st'
    ∧ t ∈ StorageManager.get_transactions (Some category) None None st'
    ∧ StorageManager.get_balance st'
      = add (StorageManager.get_balance st) amount.
Proof.
  intros Hc. unfold AccountingTools.add_transaction.
  rewrite bool_decide_eq_true_2 by done. simpl.
  set (t := mkTransaction (Some uuid) amount category description now
              (default [] tags)).
  exists t, (mkStore (transactions_file st ++ [t]) (categories_file st)
               (add (total_balance st) amount)).
  split; [reflexivity|]. split; [reflexivity|].
  repeat split.
  - apply elem_of_get_transactions. split; [done|].
    simpl. apply elem_of_app. right. constructor.
  - apply elem_of_get_transactions. split.
    + unfold StorageManager.kept.
      rewrite (bool_decide_eq_true_2 (Some (tx_category t) = Some category))
        by reflexivity.
      simpl. by rewrite andb_false_r.
    + simpl. apply elem_of_app. right. constructor.
Qed.

Lemma insert_desc_ties k t l :
  filter (λ x, tx_timestamp x = k) (StorageManager.insert_desc t l)
  = filter (λ x, tx_timestamp x = k) (t :: l).
Proof.
  induction l as [|y l IH]; simpl; [done|].
  destruct (tx_timestamp y <=? tx_timestamp t) eqn:E; [done|].
  apply Z.leb_gt in E.
  rewrite (filter_cons _ y), IH, !filter_cons.
  repeat case_decide; try done; lia.
Qed.

Lemma sort_desc_ties k l :
  filter (λ x, tx_timestamp x = k) (StorageManager.sort_desc l)
  = filter (λ x, tx_timestamp x = k) l.
Proof.
  induction l as [|t l IH]; simpl; [done|].
  rewrite insert_desc_ties, !filter_cons, IH. done.
Qed.

(** X5. The sort of a listing is stable: the listed transactions that
    share a timestamp come in the order in which they are stored. *)
Theorem listing_keeps_stored_order_on_ties category start_date end_date st k :
  filter (λ t, tx_timestamp t = k)
    (StorageManager.get_transactions category start_date end_date st)
  = filter (λ t, Is_true (StorageManager.kept category start_date end_date t))
      (filter (λ t, tx_timestamp t = k) (transactions_file st)).
Proof.
  unfold StorageManager.get_transactions. rewrite sort_desc_ties.
  rewrite !list_filter_filter. apply list_filter_iff. tauto.
Qed.

(** X6. [list_transactions] with [days] absent or 0 applies no lower
    bound; with another number of days [d] it keeps the transactions
    stamped [now - d] days or later (a future instant for a negative [d]).
    The count it returns is the length of the list. *)
Theorem zero_days_is_no_window category days now st :
  category ≠ Some "" →
  (∀ d, days = Some d → d ≠ 0 →
     -999999999 ≤ d ≤ 999999999
     ∧ Datetime.in_range (now - d * Datetime.day_us)) →
  let start_date :=
    match days with
    | Some d => if decide (d = 0) then None
                else Some (now - d * Datetime.day_us)
    | None => None
    end in
  (AccountingTools.list_transactions category days now st).1
    ≡ₚ filter (matches category start_date None) (transactions_file st)
  ∧ (AccountingTools.list_transactions category days now st).2
    = length (AccountingTools.list_transactions category days now st).1.
Proof.
  intros Hne _ start_date. split; [|done].
  unfold AccountingTools.list_transactions. simpl.
  match goal with
  | |- StorageManager.get_transactions _ ?s _ _ ≡ₚ _ =>
      assert (s = start_date) as ->
  end.
  { subst start_date. destruct days as [d|]; [|done].
    destruct (Z.eqb_spec d 0); case_decide; try done.
    unfold Datetime.timedelta. f_equal. lia. }
  destruct (get_transactions_kept category start_date None st) as [Hp _].
  rewrite Hp. erewrite list_filter_iff; [done|].
  intros t. by apply kept_matches.
Qed.

End LedgerReads.

(** * Further properties of the monthly summary *)

Lemma days_in_month_pos y m : 1 ≤ Datetime.days_in_month y m.
Proof. unfold Datetime.days_in_month. repeat case_match; lia. Qed.

Lemma month_start_is_Some y m :
  is_Some (Datetime.month_start y m) ↔ (1 ≤ y ≤ 9999 ∧ 1 ≤ m ≤ 12).
Proof.
  unfold Datetime.month_start, Datetime.datetime, Datetime.MINYEAR,
    Datetime.MAXYEAR.
  pose proof (days_in_month_pos y m) as Hd.
  destruct (Z.leb_spec 1 y), (Z.leb_spec y 9999), (Z.leb_spec 1 m),
    (Z.leb_spec m 12), (Z.leb_spec 1 (Datetime.days_in_month y m));
    simpl; split; try (intros [? [=]]); try lia; try (intros; by eexists).
Qed.

Lemma month_start_whole_second y m v :
  Datetime.month_start y m = Some v → ∃ q, v = q * Datetime.second_us.
Proof.
  unfold Datetime.month_start, Datetime.datetime.
  case_match; [|done]. intros [= <-].
  exists (Datetime.ymd2ord y m 1 * 86400). unfold Datetime.day_us. lia.
Qed.

Section MonthEdges.
Context {A : Type} `{Amount A}.
Implicit Types (st : Store A) (t : Transaction A) (l : list (Transaction A)).

(** X7. [get_monthly_summary] raises exactly when the year (the clock's
    year for [None] or 0) is outside 1..9999, or the month outside 1..12,
    or the month is December 9999, whose following month has no date. *)
Theorem monthly_summary_fails_exactly_when year month now_year now_month st :
  let y := AccountingTools.or_now year now_year in
  let m := AccountingTools.or_now month now_month in
  AccountingTools.get_monthly_summary year month now_year now_month st = None
  ↔ ¬ (1 ≤ y ≤ 9999 ∧ 1 ≤ m ≤ 12) ∨ (y = 9999 ∧ m = 12).
Proof.
  intros y m.
  unfold AccountingTools.get_monthly_summary,
    AccountingTools.month_transactions, AccountingTools.month_bounds.
  fold y m.
  pose proof (month_start_is_Some y m) as H1.
  pose proof (month_start_is_Some (y + 1) 1) as H2.
  pose proof (month_start_is_Some y (m + 1)) as H3.
  destruct (Datetime.month_start y m) as [first|]; simpl.
  - assert (1 ≤ y ≤ 9999 ∧ 1 ≤ m ≤ 12) as Hv by (apply H1; by eexists).
    destruct (Z.eqb_spec m 12) as [->|Hm].
    + destruct (Datetime.month_start (y + 1) 1) as [next|]; simpl.
      * assert (1 ≤ y + 1 ≤ 9999 ∧ 1 ≤ 1 ≤ 12) by (apply H2; by eexists).
        split; [done|]. lia.
      * split; [|done]. intros _. right. split; [|done].
        destruct (decide (y = 9999)); [done|].
        assert (is_Some (@None Z)) as [? [=]]. apply H2. lia.
    + destruct (Datetime.month_start y (m + 1)) as [next|]; simpl.
      * split; [done|]. lia.
      * split; [|done]. intros _.
        assert (is_Some (@None Z)) as [? [=]]. apply H3. lia.
  - split; [|done]. intros _. left. intros Hv.
    assert (is_Some (@None Z)) as [? [=]]. by apply H1.
Qed.

(** X8. A transaction stamped on a whole second is in the listing the
    summary of a month is computed from exactly when it is stored and
    lies in that month. *)
Theorem whole_seconds_are_in_their_month y m st l t :
  AccountingTools.month_transactions y m st = Some l →
  (∃ q, tx_timestamp t = q * Datetime.second_us) →
  t ∈ l ↔ t ∈ transactions_file st ∧ in_month y m t.
Proof.
  intros Hl [q Hq].
  destruct (month_transactions_window y m st l Hl)
    as (first & next & Hf & Hn & Hin).
  assert (∃ p, next = p * Datetime.second_us) as [p Hp].
  { destruct (m =? 12); by eapply month_start_whole_second. }
  rewrite Hin. unfold in_month. rewrite Hf, Hn.
  unfold Datetime.second_us in *. split.
  - intros [Hs Hw]. split; [done|]. exists first, next.
    repeat split; lia.
  - intros (Hs & f & n & [= <-] & [= <-] & Hw). split; [done|]. lia.
Qed.

Lemma filter_agree (P Q : Transaction A → Prop)
    `{∀ t, Decision (P t)} `{∀ t, Decision (Q t)} l :
  Forall (λ t, P t ↔ Q t) l → filter P l = filter Q l.
Proof.
  induction 1 as [|t l Ht _ IH]; [done|].
  rewrite !filter_cons, IH. repeat case_decide; tauto.
Qed.

(** X9. [get_summary] counts every stored transaction and reports the
    stored balance; when every stored transaction lies within the bounds
    used for a month, the summary of that month has the same income and
    the same expense. *)
Theorem account_summary_agrees_with_month year month now_year now_month st :
  let summary := StorageManager.get_summary st in
  transaction_count summary = length (transactions_file st)
  ∧ account_total_balance summary = StorageManager.get_balance st
  ∧ ∀ first last,
      AccountingTools.month_bounds (AccountingTools.or_now year now_year)
        (AccountingTools.or_now month now_month) = Some (first, last) →
      Forall (λ t, first ≤ tx_timestamp t ≤ last) (transactions_file st) →
      ∃ s,
        AccountingTools.get_monthly_summary year month now_year now_month st
        = Some s
        ∧ total_income s = account_total_income summary
        ∧ total_expense s = account_total_expense summary.
Proof.
  intros summary. split; [|split; [done|]].
  - unfold summary, StorageManager.get_summary; simpl.
    destruct (get_transactions_kept None None None st) as [Hp _].
    rewrite Hp, filter_all; done.
  - intros first last Hb Hall.
    unfold AccountingTools.get_monthly_summary,
      AccountingTools.month_transactions. rewrite Hb. simpl.
    eexists. split; [reflexivity|].
    assert (StorageManager.get_transactions None (Some first) (Some last) st
            = StorageManager.get_transactions None None None st) as ->; [|done].
    unfold StorageManager.get_transactions. f_equal.
    apply filter_agree. eapply Forall_impl; [exact Hall|].
    intros t Ht. simpl in Ht. unfold StorageManager.kept. simpl.
    destruct (Z.ltb_spec (tx_timestamp t) first),
      (Z.ltb_spec last (tx_timestamp t)); simpl; try lia; tauto.
Qed.

End MonthEdges.

Section WholeSeconds.
Context {A : Type} `{Amount A}.
Implicit Types (st : Store A) (t : Transaction A) (l : list (Transaction A)).

Lemma kept_in_month y m first next t :
  Datetime.month_start y m = Some first →
  (if m =? 12 then Datetime.month_start (y + 1) 1
   else Datetime.month_start y (m + 1)) = Some next →
  (∃ q, tx_timestamp t = q * Datetime.second_us) →
  Is_true (StorageManager.kept None (Some first)
             (Some (next - Datetime.timedelta 0 1)) t)
  ↔ in_month y m t.
Proof.
  intros Hf Hn [q Hq].
  assert (∃ p, next = p * Datetime.second_us) as [p Hp].
  { destruct (m =? 12); by eapply month_start_whole_second. }
  rewrite kept_matches by done. unfold matches, in_month.
  rewrite Hf, Hn. unfold Datetime.timedelta, Datetime.second_us in *. split.
  - intros (_ & Hs & He). exists first, next. repeat split; lia.
  - intros (f & n & [= <-] & [= <-] & Hw). repeat split; lia.
Qed.

(** X23. When every stored timestamp is a whole second, the summary of a
    month aggregates exactly the stored transactions of that month, from
    its first instant up to and not including the first instant of the next
    month, taken most recent first. *)
Theorem whole_second_months_are_aggregated year month now_year now_month st :
  Forall (λ t, ∃ q, tx_timestamp t = q * Datetime.second_us)
    (transactions_file st) →
  let y := AccountingTools.or_now year now_year in
  let m := AccountingTools.or_now month now_month in
  match AccountingTools.get_monthly_summary year month now_year now_month st with
  | Some s =>
      ∃ l, l ≡ₚ filter (in_month y m) (transactions_file st)
           ∧ StronglySorted newer_first l
           ∧ aggregates s l
  | None => AccountingTools.month_bounds y m = None
  end.
Proof.
  intros Hwhole y m.
  unfold AccountingTools.get_monthly_summary,
    AccountingTools.month_transactions, AccountingTools.month_bounds.
  fold y m.
  destruct (Datetime.month_start y m) as [first|] eqn:Hf; simpl; [|done].
  destruct (if m =? 12 then _ else _) as [next|] eqn:Hn; simpl; [|done].
  destruct (get_transactions_kept None (Some first)
              (Some (next - Datetime.timedelta 0 1)) st) as [Hp Hs].
  eexists. split; [|split; [exact Hs|apply summarize_aggregates]].
  rewrite Hp. erewrite filter_agree; [done|].
  eapply Forall_impl; [exact Hwhole|].
  intros t Ht. by apply kept_in_month.
Qed.

End WholeSeconds.

(** * Further properties of the dispatcher *)

Section DispatcherEdges.
Context {W exc : Type}.
Context (str format_exc : exc → string) (repr : json → string)
        (unhashable no_get : json → exc).
Implicit Types (request response : gmap string json) (w : W)
  (tools : gmap string (@MCPServer.tool W exc))
  (resources : gmap string (@MCPServer.resource W exc))
  (handler : @MCPServer.tool W exc) (getter : @MCPServer.resource W exc).

#[local] Abbreviation handle_request :=
  (MCPServer.handle_request str format_exc repr unhashable no_get).
#[local] Abbreviation batch :=
  (MCPServer.batch str format_exc repr unhashable no_get).
#[local] Abbreviation run := (MCPServer.run str format_exc repr unhashable no_get).
#[local] Abbreviation run_line :=
  (MCPServer.run_line str format_exc repr unhashable no_get).
#[local] Abbreviation serve :=
  (MCPServer.serve str format_exc repr unhashable no_get).
#[local] Abbreviation do_POST :=
  (StudioRequestHandler.do_POST str format_exc repr unhashable no_get).

Lemma handle_request_dict tools resources request w :
  handle_request tools resources (JObj request) w
  = match MCPServer.dispatch str format_exc repr unhashable tools resources
            request w with
    | (inr response, w) => (inr response, w)
    | (inl e, w) =>
        (inr (MCPServer.error_envelope (-32603) ("内部错误: " +:+ str e)
                (Some (format_exc e)) (MCPServer.get_id request)), w)
    end.
Proof. done. Qed.

(** X10. Whatever a request that is a dict holds, [handle_request] returns
    an envelope, tagged "2.0", with the identifier of the request
    ([null] when it has none) and either a ["result"] and no ["error"], or
    an ["error"] of code -32600, -32601, -32602 or -32603 and no
    ["result"]. *)
Theorem every_envelope_is_well_formed tools resources request w :
  ∃ response w',
    handle_request tools resources (JObj request) w = (inr response, w')
    ∧ response !! "jsonrpc" = Some (JStr "2.0")
    ∧ response !! "id" = Some (default JNull (request !! "id"))
    ∧ ((∃ result, response !! "result" = Some result
                  ∧ response !! "error" = None)
       ∨ (∃ code message data,
            response !! "error"
            = Some (MCPServer.error_object code message data)
            ∧ response !! "result" = None
            ∧ code ∈ [-32600; -32601; -32602; -32603])).
Proof.
  assert (∀ code message data id w',
    code ∈ [-32600; -32601; -32602; -32603] →
    ∃ response w'',
      (inr (MCPServer.error_envelope code message data id), w')
      = (@inr exc _ response, w'')
      ∧ response !! "jsonrpc" = Some (JStr "2.0")
      ∧ response !! "id" = Some id
      ∧ ((∃ result, response !! "result" = Some result
                    ∧ response !! "error" = None)
         ∨ (∃ code message data,
              response !! "error"
              = Some (MCPServer.error_object code message data)
              ∧ response !! "result" = None
              ∧ code ∈ [-32600; -32601; -32602; -32603]))) as Herr.
  { intros code message data id w' Hcode. eexists _, _.
    split; [reflexivity|]. split; [done|]. split; [done|].
    right. by exists code, message, data. }
  assert (∀ result id w',
    ∃ response w'',
      (inr (MCPServer.result_envelope result id), w')
      = (@inr exc _ response, w'')
      ∧ response !! "jsonrpc" = Some (JStr "2.0")
      ∧ response !! "id" = Some id
      ∧ ((∃ result, response !! "result" = Some result
                    ∧ response !! "error" = None)
         ∨ (∃ code message data,
              response !! "error"
              = Some (MCPServer.error_object code message data)
              ∧ response !! "result" = None
              ∧ code ∈ [-32600; -32601; -32602; -32603]))) as Hres.
  { intros result id w'. eexists _, _.
    split; [reflexivity|]. split; [done|]. split; [done|].
    left. by exists result. }
  rewrite handle_request_dict. unfold MCPServer.dispatch.
  fold (MCPServer.get_id request).
  destruct (MCPServer.version_ok request); simpl;
    [|apply Herr; by repeat constructor].
  destruct (request !! "method") as [method|].
  - destruct (MCPServer.find unhashable tools method) as [e|[handler|]];
      [apply Herr; by repeat constructor| |apply Herr; by repeat constructor].
    destruct (handler _ w) as [[e|result] w'];
      [apply Herr; by repeat constructor|apply Hres].
  - destruct (request !! "resource") as [resource|];
      [|apply Herr; by repeat constructor].
    destruct (MCPServer.find unhashable resources resource)
      as [e|[getter|]]; [apply Herr; by repeat constructor| |apply Herr; by repeat constructor].
    destruct (getter w) as [[e|result] w'];
      [apply Herr; by repeat constructor|apply Hres].
Qed.

(** X11. A method that is no key of the tool table (a string that is not
    registered, or a number, a boolean or [null]) is answered by the error
    -32601 naming it, with the identifier of the request; the state is not
    touched. *)
Theorem unknown_method_not_found tools resources request method w :
  request !! "jsonrpc" = Some (JStr "2.0") →
  request !! "method" = Some method →
  match method with
  | JStr m => tools !! m = None
  | JArr _ | JObj _ => False
  | _ => True
  end →
  handle_request tools resources (JObj request) w
  = (inr (MCPServer.error_envelope (-32601)
            ("方法 '" +:+ MCPServer.format_value repr method +:+ "' 不存在")
            None (default JNull (request !! "id"))), w).
Proof.
  intros Hv Hm Hno. rewrite handle_request_dict. unfold MCPServer.dispatch.
  apply version_ok_spec in Hv. rewrite Hv, Hm. simpl.
  destruct method; simpl in *; try done. by rewrite Hno.
Qed.

(** X12. A method, or the resource of an envelope without method, that is
    a list or a dict cannot be looked up: the [TypeError] is caught by the
    outer handler and answered by the error -32603 with its traceback; the
    state is not touched. *)
Theorem unhashable_name_is_internal_error tools resources request name w :
  request !! "jsonrpc" = Some (JStr "2.0") →
  (request !! "method" = Some name
   ∨ (request !! "method" = None ∧ request !! "resource" = Some name)) →
  is_array name || is_object name = true →
  handle_request tools resources (JObj request) w
  = (inr (MCPServer.error_envelope (-32603)
            ("内部错误: " +:+ str (unhashable name))
            (Some (format_exc (unhashable name)))
            (default JNull (request !! "id"))), w).
Proof.
  intros Hv Hname Hun. rewrite handle_request_dict. unfold MCPServer.dispatch.
  apply version_ok_spec in Hv. rewrite Hv. simpl.
  destruct Hname as [->|[-> ->]]; destruct name; simpl in *; done.
Qed.


(** X14. An envelope with a resource name and no method: an unknown name
    is answered by -32601, a getter that returns by its result, a getter
    that raises by -32602; unlike a method failure, that error carries no
    ["data"]. *)
Theorem resource_fetch_outcomes tools resources request r w :
  request !! "jsonrpc" = Some (JStr "2.0") →
  request !! "method" = None →
  request !! "resource" = Some (JStr r) →
  let id := default JNull (request !! "id") in
  handle_request tools resources (JObj request) w
  = match resources !! r with
    | None =>
        (inr (MCPServer.error_envelope (-32601) ("资源 '" +:+ r +:+ "' 不存在")
                None id), w)
    | Some getter =>
        match getter w with
        | (inr result, w') => (inr (MCPServer.result_envelope result id), w')
        | (inl e, w') =>
            (inr (MCPServer.error_envelope (-32602)
                    ("资源访问错误: " +:+ str e) None id), w')
        end
    end
  ∧ ∀ code message,
      MCPServer.error_envelope code message None id !! "error"
      = Some (JObj {[ "code" := JInt code; "message" := JStr message ]}).
Proof.
  intros Hv Hm Hr id. split; [|done].
  rewrite handle_request_dict. unfold MCPServer.dispatch, MCPServer.find.
  apply version_ok_spec in Hv. rewrite Hv, Hm, Hr. simpl.
  destruct (resources !! r) as [getter|]; [|done].
  by destruct (getter w) as [[e|result] w'].
Qed.

(** X15. A request that is not a dict makes [handle_request] raise
    instead of returning an envelope.  For a value that is no array
    either, the stdio loop stops without writing, and the HTTP handler
    answers 500 with a [null] identifier; the state is not touched. *)
Theorem non_object_request_escapes tools resources (request : json) w :
  is_object request = false →
  handle_request tools resources request w = (inl (no_get request), w)
  ∧ (is_array request = false →
     run tools resources request w = (Stopped, w)
     ∧ do_POST tools resources request w
       = ((500, JObj (MCPServer.error_envelope (-32603)
                        ("内部错误: " +:+ str (no_get request))
                        (Some (format_exc (no_get request))) JNull)), w)).
Proof.
  intros Hobj. destruct request; try done; split; try done.
Qed.

Lemma batch_app tools resources (l1 l2 : list json) : ∀ responses w,
  batch tools resources (l1 ++ l2) responses w
  = match batch tools resources l1 responses w with
    | (inr responses', w') => batch tools resources l2 responses' w'
    | (inl e, w') => (inl e, w')
    end.
Proof.
  induction l1 as [|req l1 IH]; intros responses w; [done|].
  rewrite <- app_comm_cons, !batch_cons.
  destruct (handle_request tools resources req w) as [[e|response] w1];
    [done|]. apply IH.
Qed.

(** X16. A batch with an element that is no dict: the elements before it
    are handled, with their effects on the state, the elements after it
    are not, and no response is delivered, stdio stops and HTTP answers
    500. *)
Theorem batch_stops_at_non_object tools resources
    (before after : list json) (bad : json) responses w w' :
  batch tools resources before [] w = (inr responses, w') →
  is_object bad = false →
  run tools resources (JArr (before ++ bad :: after)) w = (Stopped, w')
  ∧ do_POST tools resources (JArr (before ++ bad :: after)) w
    = ((500, JObj (MCPServer.error_envelope (-32603)
                     ("内部错误: " +:+ str (no_get bad))
                     (Some (format_exc (no_get bad))) JNull)), w').
Proof.
  intros Hb Hbad.
  assert (batch tools resources (before ++ bad :: after) [] w
          = (inl (no_get bad), w')) as Hall.
  { rewrite batch_app, Hb, batch_cons. by destruct bad. }
  unfold MCPServer.run, StudioRequestHandler.do_POST. by rewrite Hall.
Qed.






(** X20. A line that parses to a value that is neither a dict nor an
    array ends the stdio loop: what the session writes, and the state it
    leaves, are those of the lines before it, whatever follows. *)
Theorem session_ends_at_non_object tools resources
    (before after : list (outcome exc json)) (bad : json) w :
  is_object bad = false → is_array bad = false →
  serve tools resources (before ++ inr bad :: after) w
  = serve tools resources before w.
Proof.
  intros Hobj Harr. revert w.
  induction before as [|line before IH]; intros w.
  - simpl. by destruct bad.
  - rewrite <- app_comm_cons. cbn [MCPServer.serve].
    destruct (run_line tools resources line w) as [[v| |] w1]; [|done..].
    by rewrite IH.
Qed.

End DispatcherEdges.

(** * Properties of the classification of descriptions *)

Section Classification.
Context {A : Type} `{Amount A}.
Implicit Types (st : Store A).

Lemma first_match_stored items description categories category :
  MCPServer.first_match items description categories = Some category →
  category ∈ categories.
Proof.
  induction items as [|[keyword c] items IH]; simpl; [done|].
  destruct (MCPServer.contains keyword description); simpl; [|done].
  case_bool_decide; [|done]. by intros [= <-].
Qed.

Lemma first_match_none items description categories :
  Forall (λ kc, kc.2 ∉ categories) items →
  MCPServer.first_match items description categories = None.
Proof.
  induction 1 as [|[keyword c] items Hc _ IH]; simpl; [done|].
  rewrite bool_decide_eq_false_2 by done. by rewrite andb_false_r.
Qed.

(** X21. On a store that has a category, [_auto_classify] returns the name
    of a stored category, whatever the description; [add_transaction]
    with that category is then accepted by any store with the same
    categories. *)
Theorem auto_classify_names_a_stored_category description st st' :
  categories_file st ≠ [] →
  categories_file st' = categories_file st →
  MCPServer._auto_classify description st
    ∈ cat_name <$> StorageManager.get_categories st
  ∧ ∀ amount tags now uuid,
      success (AccountingTools.add_transaction amount
                 (MCPServer._auto_classify description st)
                 (Some description) tags now uuid st').1 = true.
Proof.
  intros Hne Hsame.
  assert (MCPServer._auto_classify description st
            ∈ cat_name <$> StorageManager.get_categories st) as Hin.
  { unfold MCPServer._auto_classify.
    destruct (MCPServer.first_match _ _ _) as [c|] eqn:E.
    - by eapply first_match_stored.
    - case_bool_decide; [done|].
      unfold StorageManager.get_categories.
      destruct (categories_file st) as [|c cs]; [done|]. left. }
  split; [done|]. intros amount tags now uuid.
  unfold AccountingTools.add_transaction, StorageManager.get_categories.
  rewrite Hsame. rewrite bool_decide_eq_true_2 by done. done.
Qed.

(** X22. When none of the categories the keyword table maps to is stored,
    the description plays no part: the result is ["其他"] if it is stored,
    else the first stored category, else ["未分类"].  The default
    categories are such a store. *)
Theorem auto_classify_falls_back description st :
  Forall (λ kc, kc.2 ∉ cat_name <$> categories_file st) MCPServer.category_map →
  MCPServer._auto_classify description st
  = if decide ("其他" ∈ cat_name <$> categories_file st) then "其他"
    else default "未分类" (head (cat_name <$> categories_file st)).
Proof.
  intros Hnone. unfold MCPServer._auto_classify, StorageManager.get_categories.
  rewrite first_match_none by done.
  case_bool_decide; case_decide; try done.
  by destruct (categories_file st).
Qed.

End Classification.

Lemma auto_classify_names_a_stored_category_witness :
  MCPServer._auto_classify "午餐" january_ledger
    ∈ cat_name <$> StorageManager.get_categories january_ledger
  ∧ ∀ amount tags now uuid,
      success (AccountingTools.add_transaction amount
                 (MCPServer._auto_classify "午餐" january_ledger)
                 (Some "午餐") tags now uuid one_lunch).1 = true.
Proof.
  apply (auto_classify_names_a_stored_category "午餐" january_ledger one_lunch).
  - vm_compute. discriminate.
  - reflexivity.
Defined.

Lemma auto_classify_falls_back_witness :
  MCPServer._auto_classify "打车去机场" (StorageManager.init (A:=float)) = "food".
Proof.
  apply (auto_classify_falls_back "打车去机场" (StorageManager.init (A:=float))).
  apply (bool_decide_unpack _). vm_compute. reflexivity.
Defined.

(** * The further properties at work *)

Lemma added_transaction_is_listed_witness :
  ∃ t st',
    AccountingTools.add_transaction 80%float "bonus" None None february_noon
      "tx-3" january_ledger
    = (AddSuccess t (StorageManager.get_balance st'), st')
    ∧ t = mkTransaction (Some "tx-3") 80%float "bonus" None february_noon []
    ∧ t ∈ StorageManager.get_transactions None None None st'
    ∧ t ∈ StorageManager.get_transactions (Some "bonus") None None st'
    ∧ StorageManager.get_balance st'
      = add (StorageManager.get_balance january_ledger) 80%float.
Proof.
  apply (added_transaction_is_listed 80%float "bonus" None None february_noon
           "tx-3" january_ledger).
  apply (bool_decide_unpack _). vm_compute. reflexivity.
Defined.

Lemma balance_matches_the_log_witness :
  StorageManager.get_balance january_ledger
  = py_sum (tx_amount <$> transactions_file january_ledger).
Proof.
  apply (balance_matches_the_log january_calls StorageManager.init).
  reflexivity.
Defined.

Lemma distinct_uuids_give_distinct_ids_witness :
  NoDup (tx_id <$> transactions_file january_ledger)
  ∧ Forall (λ t, is_Some (tx_id t)) (transactions_file january_ledger).
Proof.
  apply (distinct_uuids_give_distinct_ids january_calls).
  apply (bool_decide_unpack _). vm_compute. reflexivity.
Defined.

Lemma zero_days_is_no_window_witness :
  (AccountingTools.list_transactions (Some "food") (Some 30) february_noon
     january_ledger).1
    ≡ₚ filter (matches (Some "food")
                 (Some (february_noon - 30 * Datetime.day_us)) None)
         (transactions_file january_ledger)
  ∧ (AccountingTools.list_transactions (Some "food") (Some 30) february_noon
       january_ledger).2
    = length (AccountingTools.list_transactions (Some "food") (Some 30)
                february_noon january_ledger).1.
Proof.
  apply (zero_days_is_no_window (Some "food") (Some 30) february_noon
           january_ledger).
  - discriminate.
  - intros d [= <-] _. vm_compute. repeat split; congruence.
Defined.

Lemma whole_seconds_are_in_their_month_witness :
  lunch ∈ StorageManager.get_transactions None
            (Some (default 0 (Datetime.datetime 2024 1 1 0 0 0 0)))
            (Some (default 0 (Datetime.datetime 2024 1 31 23 59 59 0)))
            one_lunch
  ↔ lunch ∈ transactions_file one_lunch ∧ in_month 2024 1 lunch.
Proof.
  apply (whole_seconds_are_in_their_month 2024 1 one_lunch).
  - reflexivity.
  - exists (tx_timestamp lunch / Datetime.second_us). vm_compute. reflexivity.
Defined.

Lemma unknown_method_not_found_witness :
  MCPServer.handle_request id id (λ _, "") (λ _, "unhashable")
    (λ _, "no attribute get") example_tools example_resources
    (JObj unknown_call) ()
  = (inr (MCPServer.error_envelope (-32601) "方法 'delete_everything' 不存在"
            None (JInt 9)), ()).
Proof.
  apply (unknown_method_not_found id id (λ _, "") (λ _, "unhashable")
           (λ _, "no attribute get") example_tools example_resources
           unknown_call (JStr "delete_everything") ()); reflexivity.
Defined.

Lemma unhashable_name_is_internal_error_witness :
  MCPServer.handle_request id id (λ _, "") (λ _, "unhashable")
    (λ _, "no attribute get") example_tools example_resources
    (JObj list_call) ()
  = (inr (MCPServer.error_envelope (-32603) "内部错误: unhashable"
            (Some "unhashable") (JInt 10)), ()).
Proof.
  apply (unhashable_name_is_internal_error id id (λ _, "") (λ _, "unhashable")
           (λ _, "no attribute get") example_tools example_resources
           list_call (JArr [JStr "get_balance"]) ());
    [reflexivity|left; reflexivity|reflexivity].
Defined.


Lemma resource_fetch_outcomes_witness :
  MCPServer.handle_request id id (λ _, "") (λ _, "unhashable")
    (λ _, "no attribute get") example_tools example_resources
    (JObj fetch) ()
  = (inr (MCPServer.error_envelope (-32601) "资源 'budgets://all' 不存在"
            None (JInt 11)), ())
  ∧ ∀ code message,
      MCPServer.error_envelope code message None (JInt 11) !! "error"
      = Some (JObj {[ "code" := JInt code; "message" := JStr message ]}).
Proof.
  apply (resource_fetch_outcomes id id (λ _, "") (λ _, "unhashable")
           (λ _, "no attribute get") example_tools example_resources
           fetch "budgets://all" ()); reflexivity.
Defined.

Lemma non_object_request_escapes_witness :
  MCPServer.handle_request id id (λ _, "") (λ _, "unhashable")
    (λ _, "no attribute get") example_tools example_resources (JInt 5) ()
  = (inl "no attribute get", ())
  ∧ (is_array (JInt 5) = false →
     MCPServer.run id id (λ _, "") (λ _, "unhashable")
       (λ _, "no attribute get") example_tools example_resources (JInt 5) ()
     = (Stopped, ())
     ∧ StudioRequestHandler.do_POST id id (λ _, "") (λ _, "unhashable")
         (λ _, "no attribute get") example_tools example_resources
         (JInt 5) ()
       = ((500, JObj (MCPServer.error_envelope (-32603)
                        "内部错误: no attribute get"
                        (Some "no attribute get") JNull)), ())).
Proof.
  apply (non_object_request_escapes id id (λ _, "") (λ _, "unhashable")
           (λ _, "no attribute get") example_tools example_resources
           (JInt 5) ()).
  reflexivity.
Defined.

Lemma batch_stops_at_non_object_witness :
  MCPServer.run id id (λ _, "") (λ _, "unhashable")
    (λ _, "no attribute get") example_tools example_resources
    (JArr ([JObj full_call] ++ JInt 5 :: [JObj bare_call])) ()
  = (Stopped, ())
  ∧ StudioRequestHandler.do_POST id id (λ _, "") (λ _, "unhashable")
      (λ _, "no attribute get") example_tools example_resources
      (JArr ([JObj full_call] ++ JInt 5 :: [JObj bare_call])) ()
    = ((500, JObj (MCPServer.error_envelope (-32603)
                     "内部错误: no attribute get"
                     (Some "no attribute get") JNull)), ()).
Proof.
  apply (batch_stops_at_non_object id id (λ _, "") (λ _, "unhashable")
           (λ _, "no attribute get") example_tools example_resources
           [JObj full_call] [JObj bare_call] (JInt 5)
           [MCPServer.result_envelope JNull (JInt 8)] () ());
    reflexivity.
Defined.

Lemma session_ends_at_non_object_witness :
  MCPServer.serve id id (λ _, "") (λ _, "unhashable")
    (λ _, "no attribute get") example_tools example_resources
    ([inr (JObj full_call)] ++ inr (JInt 5) :: [inr (JObj bare_call)]) ()
  = MCPServer.serve id id (λ _, "") (λ _, "unhashable")
      (λ _, "no attribute get") example_tools example_resources
      [inr (JObj full_call)] ().
Proof.
  apply (session_ends_at_non_object id id (λ _, "") (λ _, "unhashable")
           (λ _, "no attribute get") example_tools example_resources
           [inr (JObj full_call)] [inr (JObj bare_call)] (JInt 5) ());
    reflexivity.
Defined.

Lemma whole_second_months_are_aggregated_witness :
  ∃ l, l ≡ₚ filter (in_month 2024 1) (transactions_file january_ledger)
       ∧ StronglySorted newer_first l
       ∧ aggregates
           (mkMonthlySummary "2024-01" 5000%float 35%float 4965%float
              {[ "food" := 35%float ]}) l.
Proof.
  assert (AccountingTools.get_monthly_summary (Some 2024) (Some 1) 2026 11
            january_ledger
          = Some (mkMonthlySummary "2024-01" 5000%float 35%float 4965%float
                    {[ "food" := 35%float ]})) as Hs
    by (vm_compute; reflexivity).
  assert (Forall (λ t : Transaction float,
                    ∃ q, tx_timestamp t = q * Datetime.second_us)
            (transactions_file january_ledger)) as Hwhole.
  { repeat constructor.
    - exists (default 0 (Datetime.datetime 2024 1 10 12 30 0 0)
              / Datetime.second_us).
      vm_compute. reflexivity.
    - exists (default 0 (Datetime.datetime 2024 1 25 9 0 0 0)
              / Datetime.second_us).
      vm_compute. reflexivity. }
  pose proof (whole_second_months_are_aggregated (Some 2024) (Some 1) 2026 11
                january_ledger Hwhole) as Hthm.
  cbv zeta in Hthm. rewrite Hs in Hthm. exact Hthm.
Defined.
